(** * etl.py: the Sparkify data-lake pipeline, embedded and checked

    The script reads two families of JSON files (the song catalog and the
    activity log), derives five tables with the dataframe engine and
    writes each of them as partitioned parquet.  The embedding follows the
    script statement by statement:

    - [Py]      what the script needs of the Python run time: exceptions,
                the module namespace and how a free name is resolved,
                the indentation rule applied when a file is loaded;
    - [Num]     [int / int], [int(float)] and decimal printing;
    - [Calendar], [DateTime]  [datetime.fromtimestamp] and [str];
    - [Spark]   cells, rows, tables, the dataframe operations the script
                calls, the column functions it imports, the writer;
    - [Etl]     the script itself. *)

From Stdlib Require Import ZArith QArith Qabs Qround Lia Ascii String.
From stdpp Require Import gmap strings list fin_maps.

Local Open Scope Z_scope.

(* ===================================================================== *)
(** * Python run time                                                     *)
(* ===================================================================== *)

Module Py.

(** The exceptions that can leave the script.  [JobFailed e] is the
    error the engine raises in the driver when a task of a job raised
    [e] in a Python worker. *)
Inductive exn : Type :=
| IndentationError (line : nat)
| NameError (name : string)
| KeyError (key : string)
| ParsingError
| TypeError
| ValueError
| OverflowError
| AnalysisException
| Py4JError
| OSError
| JobFailed (cause : exn).

(** A computation that returns or raises. *)
Inductive outcome (A : Type) : Type :=
| Return (a : A)
| Raise (e : exn).
Arguments Return {A} a.
Arguments Raise {A} e.

Definition bind {A B} (c : outcome A) (k : A -> outcome B) : outcome B :=
  match c with
  | Return a => k a
  | Raise e => Raise e
  end.

Fixpoint traverse {A B} (f : A -> outcome B) (l : list A) : outcome (list B) :=
  match l with
  | [] => Return []
  | x :: l' =>
      bind (f x) (fun y => bind (traverse f l') (fun ys => Return (y :: ys)))
  end.

Definition map {A B} (f : A -> B) (c : outcome A) : outcome B :=
  bind c (fun a => Return (f a)).

Notation "'let*' x ':=' c 'in' k" := (bind c (fun x => k))
  (at level 10, x name, c at level 100, k at level 200, only parsing).

Definition raises {A} (c : outcome A) : bool :=
  match c with Return _ => false | Raise _ => true end.

(** Resolving a free name: the module's global names are a finite map;
    a name that is not bound raises [NameError]. *)
Definition global {O} (g : gmap string O) (name : string) : outcome O :=
  match g !! name with
  | Some o => Return o
  | None => Raise (NameError name)
  end.

(** ** Loading a file: the indentation rule

    A logical line is a statement together with its continuation lines
    (inside brackets, inside a string literal, or after a backslash);
    blank lines and comment lines are not logical lines.  Only the
    number of the first physical line, the width of its leading
    blanks and whether it is the header of a block (a [def] or an [if]
    ending in a colon) matter to the rule. *)
Record logical_line : Type :=
  Line { lineno : nat; indent : nat; opens_block : bool }.

(** The tokenizer keeps the stack of the indentations of the open
    blocks.  [dedent c stack] closes blocks until indentation [c] is on
    top; [None] when [c] matches no open block. *)
Fixpoint dedent (c : nat) (stack : list nat) : option (list nat) :=
  match stack with
  | [] => None
  | top :: below =>
      if (top =? c)%nat then Some stack
      else if (top <? c)%nat then None
      else dedent c below
  end.

(** [stack] has the current indentation on top; [expect] says that the
    line before, whose number is [prev], was a block header.  A deeper
    line is accepted only right after a header, and a header must be
    followed by a deeper line: a header that ends the file is refused
    past the last line. *)
Fixpoint check_indentation (stack : list nat) (expect : bool) (prev : nat)
         (ls : list logical_line) : outcome unit :=
  match ls with
  | [] => if expect then Raise (IndentationError (S prev)) else Return tt
  | l :: ls' =>
      let top := hd 0%nat stack in
      if (top <? indent l)%nat then
        if expect
        then check_indentation (indent l :: stack) (opens_block l)
               (lineno l) ls'
        else Raise (IndentationError (lineno l))
      else if expect then Raise (IndentationError (lineno l))
      else match dedent (indent l) stack with
           | Some stack' =>
               check_indentation stack' (opens_block l) (lineno l) ls'
           | None => Raise (IndentationError (lineno l))
           end
  end.

Definition load (ls : list logical_line) : outcome unit :=
  check_indentation [0%nat] false 0 ls.

End Py.

Export Py.

(* ===================================================================== *)
(** * Numbers as Python computes them                                     *)
(* ===================================================================== *)

Module Num.

(** A finite binary64 value is kept as the rational it denotes. *)

Definition pow2 (e : Z) : Q :=
  if 0 <=? e then inject_Z (2 ^ e) else Qinv (inject_Z (2 ^ (- e))).

(** Round to the nearest integer, ties to the even one. *)
Definition round_half_even (x : Q) : Z :=
  let f := Qfloor x in
  match Qcompare (x - inject_Z f) (1 # 2) with
  | Lt => f
  | Gt => f + 1
  | Eq => if Z.even f then f else f + 1
  end.

(** The exponent of a positive rational: [2^e <= x < 2^(e+1)]. *)
Definition exponent (x : Q) : Z :=
  let e := Z.log2 (Qnum x) - Z.log2 (Zpos (Qden x)) in
  if Qle_bool (pow2 e) x then e else e - 1.

(** Round to nearest binary64 (53 significant bits, ties to even,
    gradual underflow below [2^-1022]); [None] beyond the largest
    finite value. *)
Definition binary64 (x : Q) : option Q :=
  if Qeq_bool x 0 then Some 0%Q
  else
    let a := Qabs x in
    let e := Z.max (exponent a) (-1022) in
    let quantum := pow2 (e - 52) in
    let m := round_half_even (a / quantum) in
    let r := Qred (inject_Z m * quantum) in
    if Qle_bool (pow2 1024) r then None
    else Some (if Qle_bool 0 x then r else Qopp r).

(** [a / b] on two ints, [b] not zero: the quotient correctly rounded
    to a float, [OverflowError] when it is too large for one. *)
Definition int_truediv (a b : Z) : outcome Q :=
  match binary64 (inject_Z a / inject_Z b) with
  | Some d => Return d
  | None => Raise OverflowError
  end.

(** [int(d)] on a float: truncation towards zero. *)
Definition trunc (d : Q) : Z :=
  if Qle_bool 0 d then Qfloor d else Qceiling d.

(** Decimal digits, most significant first; [digits w n] prints the
    [w] low digits of [n], so it pads with zeros on the left. *)
Definition digit (n : Z) : ascii :=
  ascii_of_nat (48 + Z.to_nat (n mod 10)).

Fixpoint digits (w : nat) (n : Z) (acc : string) : string :=
  match w with
  | O => acc
  | S w' => digits w' (n / 10) (String (digit n) acc)
  end.

Definition zero_padded (w : nat) (n : Z) : string := digits w n "".

(** The number of decimal digits of a non-negative int (1 for 0). *)
Definition width (n : Z) : nat :=
  if n =? 0 then 1%nat else S (Z.to_nat (Z.log2 n / 3 + 1)).

Fixpoint strip_zeros (fuel : nat) (s : string) : string :=
  match fuel, s with
  | S fuel', String c (String d rest) =>
      if Ascii.eqb c "0" then strip_zeros fuel' (String d rest) else s
  | _, _ => s
  end.

(** [str(n)] on an int. *)
Definition str_int (n : Z) : string :=
  let a := Z.abs n in
  let s := strip_zeros (width a) (zero_padded (width a) a) in
  if n <? 0 then String "-" s else s.

End Num.

(* ===================================================================== *)
(** * The proleptic Gregorian calendar                                    *)
(* ===================================================================== *)

Module Calendar.

(** Days are counted from 1970-01-01 (day 0). *)

(** Year, month and day of a day number. *)
Definition civil_from_days (z : Z) : Z * Z * Z :=
  let z := z + 719468 in
  let era := z / 146097 in
  let doe := z mod 146097 in
  let yoe := (doe - doe / 1460 + doe / 36524 - doe / 146096) / 365 in
  let doy := doe - (365 * yoe + yoe / 4 - yoe / 100) in
  let mp := (5 * doy + 2) / 153 in
  let d := doy - (153 * mp + 2) / 5 + 1 in
  let m := if mp <? 10 then mp + 3 else mp - 9 in
  let y := yoe + era * 400 in
  (if m <=? 2 then y + 1 else y, m, d).

(** The day number of a date. *)
Definition days_from_civil (y m d : Z) : Z :=
  let y := if m <=? 2 then y - 1 else y in
  let era := y / 400 in
  let yoe := y mod 400 in
  let mp := if 2 <? m then m - 3 else m + 9 in
  let doy := (153 * mp + 2) / 5 + d - 1 in
  let doe := yoe * 365 + yoe / 4 - yoe / 100 + doy in
  era * 146097 + doe - 719468.

Definition is_leap (y : Z) : bool :=
  (y mod 4 =? 0) && (negb (y mod 100 =? 0) || (y mod 400 =? 0)).

Definition days_in_month (y m : Z) : Z :=
  if m =? 2 then (if is_leap y then 29 else 28)
  else if (m =? 4) || (m =? 6) || (m =? 9) || (m =? 11) then 30
  else 31.

(** Monday is 1 and Sunday is 7 (ISO 8601); day 0 was a Thursday. *)
Definition iso_weekday (days : Z) : Z := (days + 3) mod 7 + 1.

(** The ISO 8601 week of a day is counted in the year that holds the
    Thursday of its week: it is the rank of that Thursday among the
    Thursdays of its year. *)
Definition iso_week (days : Z) : Z :=
  let thursday := days - (iso_weekday days - 1) + 3 in
  let '(y, _, _) := civil_from_days thursday in
  (thursday - days_from_civil y 1 1) / 7 + 1.

End Calendar.

(* ===================================================================== *)
(** * [datetime.datetime]                                                 *)
(* ===================================================================== *)

Module DateTime.

(** A naive [datetime] object. *)
Record datetime : Type := Make {
  year : Z; month : Z; day : Z;
  hour : Z; minute : Z; second : Z; microsecond : Z
}.

(** The local time zone of the process, as the C library answers
    [localtime]: the offset from UTC, in seconds, in force at a given
    second of the epoch.  No zone is ever two days from UTC. *)
Record zone : Type := Zone {
  offset :> Z -> Z;
  offset_bound : forall t, - 172800 < offset t < 172800
}.

Definition utc : zone := Zone (fun _ => 0) (fun _ => conj eq_refl eq_refl).

(** The fields of a [struct tm] for a count [l] of seconds of local
    time. *)
Definition broken_down (l : Z) : Z * Z * Z * Z * Z * Z :=
  let '(y, m, d) := Calendar.civil_from_days (l / 86400) in
  let s := l mod 86400 in
  (y, m, d, s / 3600, s mod 3600 / 60, s mod 60).

(** [localtime(t)]: the broken-down local time of epoch second [t]; the
    C library fails when the year does not fit the [int] of the
    structure, and Python raises [OSError]. *)
Definition localtime (tz : zone) (t : Z) : outcome (Z * Z * Z * Z * Z * Z) :=
  let '(y, m, d, hh, mm, ss) := broken_down (t + tz t) in
  if (- 2 ^ 31 <=? y - 1900) && (y - 1900 <? 2 ^ 31)
  then Return (y, m, d, hh, mm, ss)
  else Raise OSError.

(** [utc_to_seconds]: the seconds from the first day of year 1 to a
    broken-down time; the year must be one of 1 to 9999. *)
Definition utc_to_seconds (tm : Z * Z * Z * Z * Z * Z) : outcome Z :=
  let '(y, m, d, hh, mm, ss) := tm in
  if (1 <=? y) && (y <=? 9999)
  then Return
         ((((Calendar.days_from_civil y m d + 719163) * 24 + hh) * 60 + mm)
          * 60 + ss)
  else Raise ValueError.

(** [local(u)]: the local time of a second of the epoch, in seconds. *)
Definition local (tz : zone) (t : Z) : outcome Z :=
  let* tm := localtime tz t in utc_to_seconds tm.

(** The seconds and microseconds of a float [d], as the conversion
    to a [timeval] computes them.  [modf] splits the float into its
    integral and fractional parts (both exact); the fraction is scaled
    to microseconds in binary64 and rounded half to even, with a carry
    into the seconds; the seconds must fit the 64-bit [time_t] of the
    platform. *)
Definition timeval (d : Q) : outcome (Z * Z) :=
  let intpart := Num.trunc d in
  let frac := (d - inject_Z intpart)%Q in
  match Num.binary64 (frac * inject_Z 1000000) with
  | None => Raise OverflowError
  | Some scaled =>
      let us := Num.round_half_even scaled in
      let '(t, us) :=
        if 1000000 <=? us then (intpart + 1, us - 1000000)
        else if us <? 0 then (intpart - 1, us + 1000000)
        else (intpart, us) in
      if (- 2 ^ 63 <=? t) && (t <? 2 ^ 63) then Return (t, us)
      else Raise OverflowError
  end.

(** The [datetime] of a [timeval] in local time.  After the conversion
    of the second itself, the local time of the second one day earlier
    is computed, and when the offset from UTC has decreased since, that
    of a second in between: the two probes tell a repeated hour (the
    [fold] of the result, which [str] does not print), and each of them
    raises as the conversion itself does. *)
Definition from_timeval (tz : zone) (tv : Z * Z) : outcome datetime :=
  let* tm := localtime tz tv.1 in
  let* result := utc_to_seconds tm in
  let* probe := local tz (tv.1 - 86400) in
  let transition := result - probe - 86400 in
  let* _ := (if transition <? 0 then local tz (tv.1 + transition)
             else Return 0) in
  let '(y, m, d, hh, mm, ss) := tm in
  Return (Make y m d hh mm ss tv.2).

(** [datetime.fromtimestamp(d)] on a float [d], no [tz] argument. *)
Definition fromtimestamp (tz : zone) (d : Q) : outcome datetime :=
  let* tv := timeval d in from_timeval tz tv.

(** [str(dt)], that is [dt.isoformat(sep=' ')]: the microseconds are
    printed only when they are not zero. *)
Definition str (dt : datetime) : string :=
  Num.zero_padded 4 (year dt) +:+ "-" +:+
  Num.zero_padded 2 (month dt) +:+ "-" +:+
  Num.zero_padded 2 (day dt) +:+ " " +:+
  Num.zero_padded 2 (hour dt) +:+ ":" +:+
  Num.zero_padded 2 (minute dt) +:+ ":" +:+
  Num.zero_padded 2 (second dt) +:+
  (if microsecond dt =? 0 then ""
   else "." +:+ Num.zero_padded 6 (microsecond dt)).

End DateTime.

Coercion DateTime.offset : DateTime.zone >-> Funclass.

(* ===================================================================== *)
(** * The dataframe engine, as the script uses it                         *)
(* ===================================================================== *)

Module Spark.

(** ** Cells, rows, frames *)

(** A cell of a row.  The payload of [Double] is the key under which the
    engine groups the value: the script never computes with a double,
    it only compares rows that hold one. *)
Inductive cell : Type :=
| Null
| Str (s : string)
| Long (n : Z)
| Double (key : Z).

#[global] Instance cell_eq_dec : EqDecision cell.
Proof. solve_decision. Defined.

(** Nullable typed columns. *)
Definition string_col (o : option string) : cell := from_option Str Null o.
Definition long_col (o : option Z) : cell := from_option Long Null o.
Definition double_col (o : option Z) : cell := from_option Double Null o.

Abbreviation Row := (list cell).

(** The engine is lazy: a frame is a plan, and nothing of a plan runs
    before an action asks for it.  [frame A] is what running the plan
    gives: the rows, or the error of the job. *)
Abbreviation frame A := (outcome (list A)).

(** A frame whose rows are lists of cells, with the names of its
    columns. *)
Record Table : Type := { columns : list string; rows : frame Row }.

(** A column of a frame is looked up by name.  The cell of a row is
    computed when a job needs the column: a column that a Python
    function fills raises, on a row, what the function raises there, and
    a column no job needs is never computed. *)
Class Schema (A : Type) : Type :=
  column : string -> option (A -> outcome cell).

(** A column the files hold. *)
Definition stored {A} (f : A -> cell) : A -> outcome cell :=
  fun r => Return (f r).

(** Analysis of a column name against a frame is eager: an unknown name
    raises in the call that mentions it. *)
Definition resolve {A} `{Schema A} (name : string)
  : outcome (A -> outcome cell) :=
  match column name with
  | Some f => Return f
  | None => Raise AnalysisException
  end.

(** [a = b] in a condition, on two columns of the same type: null is
    equal to nothing. *)
Definition sql_eq (a b : cell) : bool :=
  match a, b with
  | Null, _ | _, Null => false
  | _, _ => bool_decide (a = b)
  end.

(** ** Jobs *)

(** The error of a job whose task raised [e] in a Python worker. *)
Definition failed {A} (c : outcome A) : outcome A :=
  match c with
  | Return a => Return a
  | Raise e => Raise (JobFailed e)
  end.

(** A job that computes [f] on every row. *)
Definition job {A B} (f : A -> outcome B) (df : frame A) : frame B :=
  let* l := df in failed (traverse f l).

(** The rows on which a condition holds. *)
Fixpoint keep {A} (p : A -> outcome bool) (l : list A) : outcome (list A) :=
  match l with
  | [] => Return []
  | x :: l' =>
      let* b := p x in
      let* k := keep p l' in
      Return (if b : bool then x :: k else k)
  end.

(** ** Transformations *)

(** [df.select([name, ...])] *)
Definition select {A} `{Schema A} (names : list string) (df : frame A)
  : outcome Table :=
  let* fs := traverse resolve names in
  Return {| columns := names;
            rows := job (fun r => traverse (fun f => f r) fs) df |}.

(** [df.select(expr.alias(name), ...)], the expressions resolved. *)
Definition select_as {A} (exprs : list (string * (A -> outcome cell)))
           (df : frame A) : Table :=
  {| columns := exprs.*1;
     rows := job (fun r => traverse (fun e => e.2 r) exprs) df |}.

(** [t.distinct()] and [t.dropDuplicates()]: one row of each group of
    equal rows. *)
Definition distinct (t : Table) : Table :=
  {| columns := columns t; rows := Py.map remove_dups (rows t) |}.

Definition dropDuplicates : Table -> Table := distinct.

(** [df.where('name = "literal"')] *)
Definition where_eq {A} `{Schema A} (name : string) (literal : cell)
           (df : frame A) : outcome (frame A) :=
  let* f := resolve name in
  Return
    (let* l := df in
     failed (keep (fun r => Py.map (fun c => sql_eq c literal) (f r)) l)).

(** The columns of a join are the columns of its two sides, under
    their own names: a name that neither side has, or that both have, is
    not resolved.  A name with a qualifier, as in [a.x], stands for the
    column [x] of the frame that was given the alias [a]; without an
    alias no qualified name is a column. *)
#[global] Instance joined_schema A B `{Schema A} `{Schema B}
  : Schema (A * B) :=
  fun name =>
    match column (A := A) name, column (A := B) name with
    | Some f, None => Some (fun r => f r.1)
    | None, Some f => Some (fun r => f r.2)
    | _, _ => None
    end.

(** [left.join(right, cond, 'inner')]: every pair that satisfies the
    condition. *)
Definition join {A B} (left : frame A) (right : frame B)
           (cond : A * B -> outcome bool) : frame (A * B) :=
  let* l := left in
  let* r := right in
  failed (keep cond (l ≫= fun a => pair a <$> r)).

(** A frame with one more column, of string type, filled by a Python
    function; a column of the same name is shadowed.  A row carries what
    the function gives on it, or raises. *)
Record extended (name : string) (A : Type) : Type :=
  Extend { original : A; added : outcome string }.
Arguments Extend name {A} original added.
Arguments original {name A} _.
Arguments added {name A} _.

#[global] Instance extended_schema name A `{Schema A}
  : Schema (extended name A) :=
  fun n => if String.eqb n name then Some (fun r => Py.map Str (added r))
           else (fun f r => f (original r)) <$> column n.

(** [df.withColumn(name, f(column))] for a Python function [f] wrapped
    by [udf].  Nothing runs in this call. *)
Definition withColumn_udf {A} (name : string) (f : A -> outcome string)
           (df : frame A) : frame (extended name A) :=
  Py.map (fmap (fun r => Extend name r (f r))) df.

(** Columns of a table, by name. *)
Fixpoint position (name : string) (names : list string) : option nat :=
  match names with
  | [] => None
  | n :: names' =>
      if String.eqb n name then Some O else S <$> position name names'
  end.

Definition col (t : Table) (name : string) : outcome (Row -> cell) :=
  match position name (columns t) with
  | Some i => Return (fun r => nth i r Null)
  | None => Raise AnalysisException
  end.

(** [t.withColumn(name, expr)]: a new last column, or a new value for
    the column that has the name.  The expression sees the row and,
    for [monotonically_increasing_id()], where the row sits in the
    running job. *)
Definition withColumn_at (name : string) (expr : nat -> Row -> cell)
           (t : Table) : Table :=
  match position name (columns t) with
  | Some i =>
      {| columns := columns t;
         rows := Py.map (imap (fun k r => <[i := expr k r]> r)) (rows t) |}
  | None =>
      {| columns := columns t ++ [name];
         rows := Py.map (imap (fun k r => r ++ [expr k r])) (rows t) |}
  end.

Definition withColumn (name : string) (expr : Row -> cell) : Table -> Table :=
  withColumn_at name (fun _ => expr).

(** ** The writer *)

(** What a write leaves at a path. *)
Record Written : Type :=
  { partitionBy : list string; schema : list string; records : list Row }.

#[global] Instance Written_eq_dec : EqDecision Written.
Proof. solve_decision. Defined.

(** The output location: what has been written, by path. *)
Abbreviation store := (gmap string Written).

(** [t.write.parquet(path, partitionBy=cols)].  No [mode] is given, so
    the engine's default applies: the call raises when the path holds
    data already.  The partition columns must be columns of the frame.
    The job then runs the plan; when it fails nothing is committed. *)
Definition write_parquet (t : Table) (path : string) (cols : list string)
           (s : store) : outcome unit * store :=
  if negb (forallb (fun c => bool_decide (c ∈ columns t)) cols)
  then (Raise AnalysisException, s)
  else match s !! path with
       | Some _ => (Raise AnalysisException, s)
       | None =>
           match rows t with
           | Raise e => (Raise e, s)
           | Return l =>
               (Return tt,
                <[path := {| partitionBy := cols; schema := columns t;
                             records := l |}]> s)
           end
       end.

(** ** [pyspark.sql.functions] *)

Module F.

(** The cast of a string to a timestamp, on the two layouts that
    [str] gives a [datetime]: [YYYY-MM-DD HH:MM:SS] and the same
    followed by a point and six digits.  The cast accepts further
    layouts, which no cell of the script has. *)
Definition digit_value (c : ascii) : option Z :=
  let n := Z.of_nat (nat_of_ascii c) in
  if (48 <=? n) && (n <=? 57) then Some (n - 48) else None.

Fixpoint number (acc : Z) (cs : list ascii) : option Z :=
  match cs with
  | [] => Some acc
  | c :: cs' => d ← digit_value c; number (10 * acc + d) cs'
  end.

Definition literal (c : ascii) (expected : string) : option unit :=
  if String.eqb (String c "") expected then Some tt else None.

Definition cast_timestamp (s : string) : option DateTime.datetime :=
  match list_ascii_of_string s with
  | y1 :: y2 :: y3 :: y4 :: s1 :: m1 :: m2 :: s2 :: d1 :: d2 :: s3 ::
    h1 :: h2 :: s4 :: n1 :: n2 :: s5 :: c1 :: c2 :: rest =>
      _ ← literal s1 "-"; _ ← literal s2 "-"; _ ← literal s3 " ";
      _ ← literal s4 ":"; _ ← literal s5 ":";
      y ← number 0 [y1; y2; y3; y4];
      m ← number 0 [m1; m2];
      d ← number 0 [d1; d2];
      hh ← number 0 [h1; h2];
      mm ← number 0 [n1; n2];
      ss ← number 0 [c1; c2];
      us ← match rest with
           | [] => Some 0
           | [p; f1; f2; f3; f4; f5; f6] =>
               _ ← literal p "."; number 0 [f1; f2; f3; f4; f5; f6]
           | _ => None
           end;
      if (1 <=? y) && (1 <=? m) && (m <=? 12) && (1 <=? d)
         && (d <=? Calendar.days_in_month y m)
         && (hh <? 24) && (mm <? 60) && (ss <? 60)
      then Some (DateTime.Make y m d hh mm ss us)
      else None
  | _ => None
  end.

(** A function of a timestamp, applied to a string column: the cell
    is cast, and a null cell or a string that is no timestamp gives
    null.  (On a column that is neither a string nor a timestamp the
    engine refuses the call; the script applies these functions to
    the string column [datetime] only.) *)
Definition of_timestamp (f : DateTime.datetime -> Z) (c : cell) : cell :=
  match c with
  | Str s => from_option (fun dt => Long (f dt)) Null (cast_timestamp s)
  | _ => Null
  end.

Definition day_number (dt : DateTime.datetime) : Z :=
  Calendar.days_from_civil
    (DateTime.year dt) (DateTime.month dt) (DateTime.day dt).

Definition year : cell -> cell := of_timestamp DateTime.year.
Definition month : cell -> cell := of_timestamp DateTime.month.
Definition dayofmonth : cell -> cell := of_timestamp DateTime.day.
Definition hour : cell -> cell := of_timestamp DateTime.hour.

(** The ISO 8601 week of the year. *)
Definition weekofyear : cell -> cell :=
  of_timestamp (fun dt => Calendar.iso_week (day_number dt)).

(** Sunday is 1 and Saturday is 7. *)
Definition dayofweek : cell -> cell :=
  of_timestamp (fun dt => Calendar.iso_weekday (day_number dt) mod 7 + 1).

End F.

End Spark.

(* ===================================================================== *)
(** * etl.py                                                              *)
(* ===================================================================== *)

Module Etl.

Import Spark.

(** ** The layout of the file

    The logical lines of etl.py: the number of the first physical line,
    its indentation, and whether it is a block header.  The docstrings
    (lines 25 to 36 and 60 to 73) and the statements continued over
    several lines are one logical line each. *)
Definition etl_lines : list logical_line :=
  [ Line 1 0 false; Line 2 0 false; Line 3 0 false; Line 4 0 false;
    Line 5 0 false; Line 6 0 false;
    Line 9 0 false; Line 10 0 false; Line 12 0 false; Line 13 0 false;
    Line 16 0 true;
      Line 17 4 false; Line 21 4 false;
    Line 24 0 true;
      Line 25 4 false; Line 38 4 false; Line 41 4 false; Line 44 4 false;
      Line 47 4 false; Line 51 4 false; Line 55 4 false;
    Line 59 0 true;
      Line 60 4 false; Line 76 4 false; Line 79 4 false; Line 82 4 false;
      Line 85 4 false; Line 89 4 false; Line 93 4 false; Line 94 4 false;
      Line 97 4 false; Line 98 4 false; Line 101 4 false;
      Line 112 4 false; Line 116 4 false; Line 119 4 false;
      Line 120 4 false;
       Line 134 5 false;
    Line 137 0 true;
      Line 138 4 false; Line 139 4 false; Line 140 4 false;
      Line 142 4 false; Line 143 4 false;
    Line 146 0 true;
      Line 147 4 false ].

(** ** The input records

    The columns the script reads, with the types the engine infers for
    the Sparkify files: strings, 64-bit integers ([year], [sessionId]
    and [ts], the milliseconds since the epoch) and doubles. *)
Record CatalogRow : Type := {
  song_id : option string;
  title : option string;
  artist_id : option string;
  year : option Z;
  duration : option Z;
  artist_name : option string;
  artist_location : option string;
  artist_latitude : option Z;
  artist_longitude : option Z
}.

Record LogRow : Type := {
  userId : option string;
  firstName : option string;
  lastName : option string;
  gender : option string;
  level : option string;
  page : option string;
  ts : option Z;
  sessionId : option Z;
  location : option string;
  userAgent : option string;
  artist : option string
}.

Fixpoint by_name {A} (cols : list (string * (A -> outcome cell)))
         (name : string) : option (A -> outcome cell) :=
  match cols with
  | [] => None
  | (n, f) :: cols' => if String.eqb n name then Some f else by_name cols' name
  end.

#[global] Instance catalog_schema : Schema CatalogRow :=
  by_name
    [ ("song_id", stored (fun r => string_col (song_id r)));
      ("title", stored (fun r => string_col (title r)));
      ("artist_id", stored (fun r => string_col (artist_id r)));
      ("year", stored (fun r => long_col (year r)));
      ("duration", stored (fun r => double_col (duration r)));
      ("artist_name", stored (fun r => string_col (artist_name r)));
      ("artist_location", stored (fun r => string_col (artist_location r)));
      ("artist_latitude", stored (fun r => double_col (artist_latitude r)));
      ("artist_longitude", stored (fun r => double_col (artist_longitude r))) ]%string.

#[global] Instance log_schema : Schema LogRow :=
  by_name
    [ ("userId", stored (fun r => string_col (userId r)));
      ("firstName", stored (fun r => string_col (firstName r)));
      ("lastName", stored (fun r => string_col (lastName r)));
      ("gender", stored (fun r => string_col (gender r)));
      ("level", stored (fun r => string_col (level r)));
      ("page", stored (fun r => string_col (page r)));
      ("ts", stored (fun r => long_col (ts r)));
      ("sessionId", stored (fun r => long_col (sessionId r)));
      ("location", stored (fun r => string_col (location r)));
      ("userAgent", stored (fun r => string_col (userAgent r)));
      ("artist", stored (fun r => string_col (artist r))) ]%string.

(** ** What a run depends on

    The records of the files under a path pattern (none when the pattern
    matches no file), the time zone of the process that runs the Python
    functions, and the file dl.cfg: the names of its sections, or the
    error its parse raises (a missing file has no section). *)
Record world : Type := {
  song_json : string -> list CatalogRow;
  log_json : string -> list LogRow;
  local_zone : DateTime.zone;
  dl_cfg : outcome (list string)
}.

(** ** The module namespace *)

(** The objects a global name of the script can be bound to. *)
Inductive pyobj : Type :=
| Library (name : string)
    (** an object of a library: a module, a class, [udf], [col] *)
| Function (name : string)
    (** a function defined by etl.py *)
| ColumnFn (f : cell -> cell)
    (** a function of one column from [pyspark.sql.functions] *)
| IdFn (ids : nat -> Z)
    (** [monotonically_increasing_id], with the ids a run hands out *)
| Object.

Abbreviation namespace := (gmap string pyobj).

(** The names bound by the [import] statements (lines 1 to 6), the
    assignment of line 9 and the four [def] statements. *)
Definition etl_globals : namespace :=
  list_to_map
    [ ("configparser", Library "configparser");
      ("datetime", Library "datetime.datetime");
      ("os", Library "os");
      ("SparkSession", Library "pyspark.sql.SparkSession");
      ("udf", Library "pyspark.sql.functions.udf");
      ("col", Library "pyspark.sql.functions.col");
      ("year", ColumnFn F.year);
      ("month", ColumnFn F.month);
      ("dayofmonth", ColumnFn F.dayofmonth);
      ("hour", ColumnFn F.hour);
      ("weekofyear", ColumnFn F.weekofyear);
      ("date_format", Library "pyspark.sql.functions.date_format");
      ("config", Object);
      ("create_spark_session", Function "create_spark_session");
      ("process_song_data", Function "process_song_data");
      ("process_log_data", Function "process_log_data");
      ("main", Function "main") ]%string.

(** The namespace the script would have, had line 6 also imported
    [dayofweek] and [monotonically_increasing_id]. *)
Definition with_missing_imports (ids : nat -> Z) : namespace :=
  <["dayofweek" := ColumnFn F.dayofweek]>
    (<["monotonically_increasing_id" := IdFn ids]> etl_globals).

(** The same, without [monotonically_increasing_id]. *)
Definition with_dayofweek : namespace :=
  <["dayofweek" := ColumnFn F.dayofweek]> etl_globals.

(** Using a global name as the library object, the script function,
    the column function or the id function the statement takes it for;
    an object of another kind cannot be used that way. *)
Definition library (g : namespace) (name qualified : string) : outcome unit :=
  let* o := global g name in
  match o with
  | Library q => if String.eqb q qualified then Return tt else Raise TypeError
  | _ => Raise TypeError
  end.

Definition function (g : namespace) (name : string) : outcome unit :=
  let* o := global g name in
  match o with
  | Function f => if String.eqb f name then Return tt else Raise TypeError
  | _ => Raise TypeError
  end.

Definition column_function (g : namespace) (name : string)
  : outcome (cell -> cell) :=
  let* o := global g name in
  match o with
  | ColumnFn f => Return f
  | _ => Raise TypeError
  end.

Definition id_function (g : namespace) (name : string) : outcome (nat -> Z) :=
  let* o := global g name in
  match o with
  | IdFn ids => Return ids
  | _ => Raise TypeError
  end.

(** ** Statements that read and write *)

(** A statement of the driver: it may change the output location, and
    it returns or raises. *)
Definition action (A : Type) : Type := store -> outcome A * store.

Definition and_then {A B} (c : action A) (k : A -> action B) : action B :=
  fun s => match c s with
           | (Return a, s') => k a s'
           | (Raise e, s') => (Raise e, s')
           end.

(** A statement that writes nothing. *)
Definition driver {A} (c : outcome A) : action A := fun s => (c, s).

Notation "x ⇐ c ; k" := (and_then c (fun x => k))
  (at level 20, c at level 100, k at level 200, only parsing).

(** [spark.read.json(path)].  The engine raises when the pattern
    matches no file.  (Files that hold no record give a frame without
    columns, and the first use of a column raises the same error; the
    script uses a column of each frame right after it has read it.) *)
Definition read_json {A} (files : string -> list A) (path : string)
  : outcome (frame A) :=
  match files path with
  | [] => Raise AnalysisException
  | records => Return (Return records)
  end.

(** ** process_song_data (lines 24 to 56) *)

(** Line 44. *)
Definition songs_table (df : frame CatalogRow) : outcome Table :=
  Py.map distinct
    (select ["song_id"; "title"; "artist_id"; "year"; "duration"]%string df).

(** Lines 51 and 52. *)
Definition artists_table (df : frame CatalogRow) : outcome Table :=
  Py.map distinct
    (select ["artist_id"; "artist_name"; "artist_location";
             "artist_latitude"; "artist_longitude"]%string df).

(** Lines 47 and 48.  The second argument is the comparison
    [partitionBy == ['year','artist_id']], not a keyword argument: the
    name [partitionBy] is looked up among the globals.  Were it bound,
    the comparison of one of the objects above with a list would be
    [False], passed in the position of [mode], and the writer refuses a
    save mode that is a bool.  No branch writes. *)
Definition write_songs (g : namespace) (t : Table) (path : string)
  : action unit :=
  _ ⇐ driver (global g "partitionBy");
  driver (Raise Py4JError).

Definition process_song_data (g : namespace) (w : world)
           (input_data output_data : string) : action unit :=
  let song_data := input_data +:+ "song_data/*/*/*/" in
  df ⇐ driver (read_json (song_json w) song_data);
  songs ⇐ driver (songs_table df);
  _ ⇐ write_songs g songs ((output_data +:+ "songs/") +:+ "songs.parquet");
  artists ⇐ driver (artists_table df);
  write_parquet artists
    ((output_data +:+ "artists/") +:+ "artists.parquet") ["artist_id"%string].

(** ** process_log_data (lines 59 to 134) *)

(** Line 82. *)
Definition play_events (df : frame LogRow) : outcome (frame LogRow) :=
  where_eq "page" (Str "NextSong") df.

(** Lines 85 and 86. *)
Definition users_table (df : frame LogRow) : outcome Table :=
  Py.map distinct
    (select ["userId"; "firstName"; "lastName"; "gender"; "level"]%string df).

(** Line 93, the function under [udf]: [str(int(int(x)/1000))].  The
    engine hands a null cell over as [None], and [int(None)] raises. *)
Definition get_timestamp (x : option Z) : outcome string :=
  match x with
  | None => Raise TypeError
  | Some n =>
      let* d := Num.int_truediv n 1000 in
      Return (Num.str_int (Num.trunc d))
  end.

(** Line 97, the function under [udf]:
    [str(datetime.fromtimestamp(int(x) / 1000))].  It runs in a worker,
    where [datetime] is looked up before [int(x)] is called, and where
    the local time zone is that of the worker's process. *)
Definition get_datetime (g : namespace) (tz : DateTime.zone) (x : option Z)
  : outcome string :=
  let* _ := library g "datetime" "datetime.datetime" in
  match x with
  | None => Raise TypeError
  | Some n =>
      let* d := Num.int_truediv n 1000 in
      let* dt := DateTime.fromtimestamp tz d in
      Return (DateTime.str dt)
  end.

(** The rows of the log frame after lines 94 and 98. *)
Abbreviation Event := (extended "datetime" (extended "timestamp" LogRow)).

(** Lines 93 to 98.  [df.ts] is the column [ts] of the log records. *)
Definition with_timestamps (g : namespace) (tz : DateTime.zone)
           (df : frame LogRow) : outcome (frame Event) :=
  let* _ := library g "udf" "pyspark.sql.functions.udf" in
  let df := withColumn_udf "timestamp" (fun r => get_timestamp (ts r)) df in
  let* _ := library g "udf" "pyspark.sql.functions.udf" in
  Return
    (withColumn_udf "datetime"
       (fun r => get_datetime g tz (ts (original r))) df).

(** Lines 101 to 109.  Each column function is looked up when its line
    is reached, and applied to the column named [datetime] of the frame
    built so far; [df.datetime] is that same column. *)
Definition time_table (g : namespace) (df : frame Event) : outcome Table :=
  let* t := select ["datetime"%string] df in
  let* c := col t "datetime" in
  let t := withColumn "start_time" c t in
  let* f := column_function g "hour" in let* c := col t "datetime" in
  let t := withColumn "hour" (fun r => f (c r)) t in
  let* f := column_function g "dayofmonth" in let* c := col t "datetime" in
  let t := withColumn "day" (fun r => f (c r)) t in
  let* f := column_function g "weekofyear" in let* c := col t "datetime" in
  let t := withColumn "week" (fun r => f (c r)) t in
  let* f := column_function g "month" in let* c := col t "datetime" in
  let t := withColumn "month" (fun r => f (c r)) t in
  let* f := column_function g "year" in let* c := col t "datetime" in
  let t := withColumn "year" (fun r => f (c r)) t in
  let* f := column_function g "dayofweek" in let* c := col t "datetime" in
  let t := withColumn "weekday" (fun r => f (c r)) t in
  Return (dropDuplicates t).

(** Line 119.  [col] is looked up and called on the two names; the
    join then analyses its condition against the columns of the two
    frames.  Neither frame was given an alias, so the names [df.artist]
    and [song_df.artist_name], which carry the names of the Python
    variables as qualifiers, are resolved like any other name. *)
Definition merged_df (g : namespace) (df : frame Event)
           (song_df : frame CatalogRow) : outcome (frame (Event * CatalogRow)) :=
  let* _ := library g "col" "pyspark.sql.functions.col" in
  let* a := resolve "df.artist" in
  let* n := resolve "song_df.artist_name" in
  Return (join df song_df
            (fun p => let* x := a p in let* y := n p in Return (sql_eq x y))).

(** Lines 120 to 130: the arguments of [select] are built first ([col]
    on lines 121 to 128, then [year] and [month]), then the selection
    is analysed. *)
Definition songplays_select (g : namespace)
           (merged : frame (Event * CatalogRow)) : outcome Table :=
  let* _ := library g "col" "pyspark.sql.functions.col" in
  let* y := column_function g "year" in
  let* m := column_function g "month" in
  let* start_time := resolve "df.datetime" in
  let* user_id := resolve "df.userId" in
  let* level := resolve "df.level" in
  let* song_id := resolve "song_df.song_id" in
  let* artist_id := resolve "song_df.artist_id" in
  let* session_id := resolve "df.sessionId" in
  let* location := resolve "df.location" in
  let* user_agent := resolve "df.userAgent" in
  let* datetime := resolve "df.datetime" in
  Return
    (select_as
      [ ("start_time", start_time); ("user_id", user_id); ("level", level);
        ("song_id", song_id); ("artist_id", artist_id);
        ("session_id", session_id); ("location", location);
        ("user_agent", user_agent);
        ("year", fun r => Py.map y (datetime r));
        ("month", fun r => Py.map m (datetime r)) ]%string merged).

(** Line 131: [monotonically_increasing_id] is looked up once the
    selection is built, and its column is added to it. *)
Definition add_songplay_id (g : namespace) (t : Table) : outcome Table :=
  let* ids := id_function g "monotonically_increasing_id" in
  Return (withColumn_at "songplay_id" (fun i _ => Long (ids i)) t).

(** Lines 120 to 131. *)
Definition songplays_table (g : namespace)
           (merged : frame (Event * CatalogRow)) : outcome Table :=
  let* t := songplays_select g merged in
  add_songplay_id g t.

Definition process_log_data (g : namespace) (w : world)
           (input_data output_data : string) : action unit :=
  let log_data := input_data +:+ "log_data/*/*/*.json" in
  df ⇐ driver (read_json (log_json w) log_data);
  df ⇐ driver (play_events df);
  users ⇐ driver (users_table df);
  _ ⇐ write_parquet users
        ((output_data +:+ "users/") +:+ "users.parquet") ["userId"%string];
  df ⇐ driver (with_timestamps g (local_zone w) df);
  time ⇐ driver (time_table g df);
  _ ⇐ write_parquet time
        ((output_data +:+ "time/") +:+ "time.parquet") ["start_time"%string];
  song_df ⇐ driver (read_json (song_json w)
                      (input_data +:+ "song_data/*/*/*/*.json"));
  merged ⇐ driver (merged_df g df song_df);
  songplays ⇐ driver (songplays_table g merged);
  write_parquet songplays
    ((output_data +:+ "songplays/") +:+ "songplays.parquet")
    ["start_time"; "user_id"]%string.

(** ** main (lines 137 to 143) and the module body *)

(** Lines 16 to 21: the session builder of the library. *)
Definition create_spark_session (g : namespace) : outcome unit :=
  library g "SparkSession" "pyspark.sql.SparkSession".

Definition input_data : string := "s3a://udacity-dend/".
Definition output_data : string := "s3a://sparkify-data-lake/".

Definition main (g : namespace) (w : world) : action unit :=
  _ ⇐ driver (function g "create_spark_session");
  _ ⇐ driver (create_spark_session g);
  _ ⇐ driver (function g "process_song_data");
  _ ⇐ process_song_data g w input_data output_data;
  _ ⇐ driver (function g "process_log_data");
  process_log_data g w input_data output_data.

(** Lines 12 and 13: [config[key]] is the section of that name, a
    [KeyError] when dl.cfg has none; a section is not a string, and
    [os.environ] takes strings only. *)
Definition export_credential (sections : list string) (key : string)
  : outcome unit :=
  if bool_decide (key ∈ sections) then Raise TypeError
  else Raise (KeyError key).

(** The statements of the module, in the namespace they build. *)
Definition module_body (w : world) : action unit :=
  sections ⇐ driver (dl_cfg w);
  _ ⇐ driver (export_credential sections "AWS_ACCESS_KEY_ID");
  _ ⇐ driver (export_credential sections "AWS_SECRET_ACCESS_KEY");
  main etl_globals w.

(** [python etl.py]: the file is loaded, then its statements run. *)
Definition run_script (w : world) : action unit :=
  _ ⇐ driver (load etl_lines);
  module_body w.

(** ** The frames of process_log_data as functions of what it reads *)

(** The log frame after line 82, and after line 98. *)
Definition plays (logs : list LogRow) : outcome (frame LogRow) :=
  play_events (Return logs).

Definition events (g : namespace) (tz : DateTime.zone) (logs : list LogRow)
  : outcome (frame Event) :=
  let* df := plays logs in with_timestamps g tz df.

Definition users_of (logs : list LogRow) : outcome Table :=
  let* df := plays logs in users_table df.

Definition time_of (g : namespace) (tz : DateTime.zone) (logs : list LogRow)
  : outcome Table :=
  let* df := events g tz logs in time_table g df.

Definition songplays_of (g : namespace) (tz : DateTime.zone)
           (logs : list LogRow) (songs : list CatalogRow) : outcome Table :=
  let* df := events g tz logs in
  let* merged := merged_df g df (Return songs) in
  songplays_table g merged.

(** ** Vocabulary of the statements *)

(** The row a catalog record gives the songs table and the artists
    table, a log record the users table, and a [datetime] string the time
    table. *)
Definition song_tuple (c : CatalogRow) : Row :=
  [ string_col (song_id c); string_col (title c); string_col (artist_id c);
    long_col (year c); double_col (duration c) ].

Definition artist_tuple (c : CatalogRow) : Row :=
  [ string_col (artist_id c); string_col (artist_name c);
    string_col (artist_location c); double_col (artist_latitude c);
    double_col (artist_longitude c) ].

Definition user_tuple (r : LogRow) : Row :=
  [ string_col (userId r); string_col (firstName r);
    string_col (lastName r); string_col (gender r); string_col (level r) ].

Definition time_tuple (weekday : cell -> cell) (s : string) : Row :=
  [ Str s; Str s; F.hour (Str s); F.dayofmonth (Str s);
    F.weekofyear (Str s); F.month (Str s); F.year (Str s);
    weekday (Str s) ].

(** The row of the log frame after lines 94 and 98, for a log record:
    the two new columns hold what the Python functions give on [ts]. *)
Definition event_of (g : namespace) (tz : DateTime.zone) (r : LogRow)
  : Event :=
  Extend "datetime" (Extend "timestamp" r (get_timestamp (ts r)))
    (get_datetime g tz (ts r)).

(** The condition of line 82 on a log record. *)
Definition is_play (r : LogRow) : bool :=
  sql_eq (string_col (page r)) (Str "NextSong").

(** The files process_log_data reads its log records from (line 79)
    and its catalog records from (line 116), and the files
    process_song_data reads (line 41). *)
Definition log_files (w : world) (input : string) : list LogRow :=
  log_json w (input +:+ "log_data/*/*/*.json").

Definition catalog_files (w : world) (input : string) : list CatalogRow :=
  song_json w (input +:+ "song_data/*/*/*/*.json").

Definition song_files (w : world) (input : string) : list CatalogRow :=
  song_json w (input +:+ "song_data/*/*/*/").

(** The columns of the time table. *)
Definition time_columns : list string :=
  ["datetime"; "start_time"; "hour"; "day"; "week"; "month"; "year";
   "weekday"]%string.

(** What line 89 leaves at the users path. *)
Definition users_written (logs : list LogRow) : Written :=
  {| partitionBy := ["userId"%string];
     schema := ["userId"; "firstName"; "lastName"; "gender"; "level"]%string;
     records := remove_dups (user_tuple <$> filter is_play logs) |}.

(** The paths the three writes of process_log_data go to. *)
Definition users_path (out : string) : string :=
  (out +:+ "users/") +:+ "users.parquet".
Definition time_path (out : string) : string :=
  (out +:+ "time/") +:+ "time.parquet".
Definition songplays_path (out : string) : string :=
  (out +:+ "songplays/") +:+ "songplays.parquet".

(** A world whose path patterns match no file. *)
Definition no_files (tz : DateTime.zone) (cfg : outcome (list string))
  : world :=
  {| song_json := fun _ => []; log_json := fun _ => [];
     local_zone := tz; dl_cfg := cfg |}.

End Etl.

(* ===================================================================== *)
(** * Sample records                                                      *)
(* ===================================================================== *)

Module Sample.

Import Spark Etl.

Definition yellow : CatalogRow :=
  {| song_id := Some "SOAAA"; title := Some "Yellow";
     artist_id := Some "AR001"; year := Some 2000; duration := Some 269;
     artist_name := Some "Coldplay"; artist_location := Some "London";
     artist_latitude := None; artist_longitude := None |}%string.

Definition clocks : CatalogRow :=
  {| song_id := Some "SOBBB"; title := Some "Clocks";
     artist_id := Some "AR001"; year := Some 2002; duration := Some 307;
     artist_name := Some "Coldplay"; artist_location := Some "London";
     artist_latitude := None; artist_longitude := None |}%string.

Definition play_free : LogRow :=
  {| userId := Some "26"; firstName := Some "Ryan"; lastName := Some "Smith";
     gender := Some "M"; level := Some "free"; page := Some "NextSong";
     ts := Some 1541440006796; sessionId := Some 583;
     location := Some "San Jose"; userAgent := Some "Mozilla";
     artist := Some "Coldplay" |}%string.

Definition play_paid : LogRow :=
  {| userId := Some "26"; firstName := Some "Ryan"; lastName := Some "Smith";
     gender := Some "M"; level := Some "paid"; page := Some "NextSong";
     ts := Some 1541440182796; sessionId := Some 583;
     location := Some "San Jose"; userAgent := Some "Mozilla";
     artist := Some "Muse" |}%string.

Definition home : LogRow :=
  {| userId := Some "26"; firstName := Some "Ryan"; lastName := Some "Smith";
     gender := Some "M"; level := Some "free"; page := Some "Home";
     ts := Some 1541440000796; sessionId := Some 583;
     location := Some "San Jose"; userAgent := Some "Mozilla";
     artist := None |}%string.

(** Pacific Standard Time, eight hours behind UTC. *)
Definition pst : DateTime.zone :=
  DateTime.Zone (fun _ => -28800) (fun _ => conj eq_refl eq_refl).

Definition files : world :=
  {| song_json := fun _ => [yellow; clocks];
     log_json := fun _ => [play_free; home; play_paid];
     local_zone := DateTime.utc; dl_cfg := Return [] |}.

End Sample.

(* ===================================================================== *)
(** * Properties                                                          *)
(* ===================================================================== *)

Import Spark Etl.


(** ** The frames in closed form *)

Section Frames.

Lemma traverse_Return {A B} (f : A -> B) (l : list A) :
  traverse (fun x => Return (f x)) l = Return (f <$> l).
Proof.
  induction l as [|x l IH]; [done|].
  change (traverse (fun x => Return (f x)) (x :: l))
    with (Py.bind (traverse (fun x => Return (f x)) l)
            (fun ys => Return (f x :: ys))).
  by rewrite IH.
Qed.

Lemma keep_Return {A} (p : A -> bool) (l : list A) :
  keep (fun x => Return (p x)) l = Return (filter p l).
Proof.
  induction l as [|x l IH]; [done|].
  change (keep (fun x => Return (p x)) (x :: l))
    with (Py.bind (keep (fun x => Return (p x)) l)
            (fun k => Return (if p x then x :: k else k))).
  rewrite IH, (filter_cons p x l). unfold Py.bind.
  destruct (p x); reflexivity.
Qed.

Lemma is_play_spec r : is_play r <-> page r = Some "NextSong"%string.
Proof.
  unfold is_play. destruct (page r) as [p|]; simpl; [|easy].
  rewrite bool_decide_spec. split; congruence.
Qed.

Lemma play_events_eq logs :
  play_events (Return logs) = Return (Return (filter is_play logs)).
Proof.
  transitivity
    (Return (A := frame LogRow)
       (failed (keep (fun r => Return (is_play r)) logs)));
    [reflexivity|].
  by rewrite keep_Return.
Qed.

Lemma plays_eq logs : plays logs = Return (Return (filter is_play logs)).
Proof. apply play_events_eq. Qed.

Lemma songs_table_eq df :
  songs_table (Return df) =
  Return {| columns := ["song_id"; "title"; "artist_id"; "year"; "duration"]%string;
            rows := Return (remove_dups (song_tuple <$> df)) |}.
Proof.
  transitivity
    (Return
       {| columns := ["song_id"; "title"; "artist_id"; "year"; "duration"]%string;
          rows := Py.map remove_dups
                    (failed (traverse (fun c => Return (song_tuple c)) df)) |});
    [reflexivity|].
  by rewrite traverse_Return.
Qed.

Lemma artists_table_eq df :
  artists_table (Return df) =
  Return {| columns := ["artist_id"; "artist_name"; "artist_location";
                        "artist_latitude"; "artist_longitude"]%string;
            rows := Return (remove_dups (artist_tuple <$> df)) |}.
Proof.
  transitivity
    (Return
       {| columns := ["artist_id"; "artist_name"; "artist_location";
                      "artist_latitude"; "artist_longitude"]%string;
          rows := Py.map remove_dups
                    (failed (traverse (fun c => Return (artist_tuple c)) df)) |});
    [reflexivity|].
  by rewrite traverse_Return.
Qed.

Lemma users_table_eq logs :
  users_table (Return logs) =
  Return {| columns := ["userId"; "firstName"; "lastName"; "gender"; "level"]%string;
            rows := Return (remove_dups (user_tuple <$> logs)) |}.
Proof.
  transitivity
    (Return
       {| columns := ["userId"; "firstName"; "lastName"; "gender"; "level"]%string;
          rows := Py.map remove_dups
                    (failed (traverse (fun r => Return (user_tuple r)) logs)) |});
    [reflexivity|].
  by rewrite traverse_Return.
Qed.

Lemma users_of_eq logs :
  users_of logs =
  Return {| columns := ["userId"; "firstName"; "lastName"; "gender"; "level"]%string;
            rows := Return (remove_dups (user_tuple <$> filter is_play logs)) |}.
Proof.
  unfold users_of. rewrite plays_eq. apply users_table_eq.
Qed.

Lemma plays_without before r after :
  page r <> Some "NextSong"%string ->
  plays (before ++ r :: after) = plays (before ++ after).
Proof.
  intros Hr. rewrite !plays_eq, !filter_app, filter_cons_False; [done|].
  by rewrite is_play_spec.
Qed.

End Frames.

(** ** C1: the songs table *)

(** C1.  For every set of catalog records, line 44 gives the songs table
    the columns (song_id, title, artist_id, year, duration); every row of
    the table is that tuple of some catalog record (and every catalog
    record has its tuple in the table), and no two rows of the table are
    equal. *)
Theorem songs_table_rows (df : list CatalogRow) :
  exists rows,
    songs_table (Return df) =
      Return {| columns := ["song_id"; "title"; "artist_id"; "year"; "duration"]%string;
                Spark.rows := Return rows |}
    /\ NoDup rows
    /\ forall r, r ∈ rows <-> exists c, c ∈ df /\ r = song_tuple c.
Proof.
  exists (remove_dups (song_tuple <$> df)). split; [apply songs_table_eq|].
  split; [apply NoDup_remove_dups|].
  intros r. rewrite elem_of_remove_dups, list_elem_of_fmap.
  split; intros (c & H1 & H2); eauto.
Qed.

(** ** C2: the filter on [page] *)

(** C2.  A log record whose [page] is not the string NextSong gives
    nothing to the users, time and songplays tables: with the record or
    without it, each of the three derivations of process_log_data has the
    same result, whatever the names of the module are bound to. *)
Theorem non_play_contributes_nothing
        (g : namespace) (tz : DateTime.zone)
        (before : list LogRow) (r : LogRow) (after : list LogRow)
        (songs : list CatalogRow) :
  page r <> Some "NextSong"%string ->
  users_of (before ++ r :: after) = users_of (before ++ after)
  /\ time_of g tz (before ++ r :: after) = time_of g tz (before ++ after)
  /\ songplays_of g tz (before ++ r :: after) songs
     = songplays_of g tz (before ++ after) songs.
Proof.
  intros Hr. unfold users_of, time_of, songplays_of, events.
  by rewrite (plays_without _ _ _ Hr).
Qed.

Lemma non_play_contributes_nothing_witness :
  users_of ([] ++ Sample.home :: [Sample.play_free]) = users_of ([] ++ [Sample.play_free])
  /\ time_of etl_globals DateTime.utc ([] ++ Sample.home :: [Sample.play_free])
     = time_of etl_globals DateTime.utc ([] ++ [Sample.play_free])
  /\ songplays_of etl_globals DateTime.utc ([] ++ Sample.home :: [Sample.play_free])
       [Sample.yellow]
     = songplays_of etl_globals DateTime.utc ([] ++ [Sample.play_free]) [Sample.yellow].
Proof.
  apply (non_play_contributes_nothing etl_globals DateTime.utc
           [] Sample.home [Sample.play_free] [Sample.yellow]).
  discriminate.
Defined.

(** ** C6: the users table *)

(** C6.  The users table is deduplicated on the whole tuple (userId,
    firstName, lastName, gender, level): when two play events of one
    user carry different levels, the table holds a row for each of them,
    and the two rows differ. *)
Theorem users_table_row_per_level (logs : list LogRow) (r1 r2 : LogRow) :
  r1 ∈ logs -> r2 ∈ logs ->
  page r1 = Some "NextSong"%string -> page r2 = Some "NextSong"%string ->
  userId r1 = userId r2 -> level r1 <> level r2 ->
  exists rows,
    users_of logs =
      Return {| columns := ["userId"; "firstName"; "lastName"; "gender"; "level"]%string;
                Spark.rows := Return rows |}
    /\ NoDup rows
    /\ user_tuple r1 ∈ rows /\ user_tuple r2 ∈ rows
    /\ user_tuple r1 <> user_tuple r2.
Proof.
  intros H1 H2 P1 P2 Hu Hl.
  exists (remove_dups (user_tuple <$> filter is_play logs)).
  split; [apply users_of_eq|]. split; [apply NoDup_remove_dups|].
  repeat split.
  - rewrite elem_of_remove_dups. apply list_elem_of_fmap_2, list_elem_of_filter.
    by rewrite is_play_spec.
  - rewrite elem_of_remove_dups. apply list_elem_of_fmap_2, list_elem_of_filter.
    by rewrite is_play_spec.
  - unfold user_tuple. intros [= _ _ _ _ E]. apply Hl.
    destruct (level r1), (level r2); simpl in E; by simplify_eq.
Qed.

Lemma users_table_row_per_level_witness :
  exists rows,
    users_of [Sample.play_free; Sample.home; Sample.play_paid] =
      Return {| columns := ["userId"; "firstName"; "lastName"; "gender"; "level"]%string;
                Spark.rows := Return rows |}
    /\ NoDup rows
    /\ user_tuple Sample.play_free ∈ rows /\ user_tuple Sample.play_paid ∈ rows
    /\ user_tuple Sample.play_free <> user_tuple Sample.play_paid.
Proof.
  apply (users_table_row_per_level
           [Sample.play_free; Sample.home; Sample.play_paid]
           Sample.play_free Sample.play_paid).
  - apply list_elem_of_here.
  - do 2 apply list_elem_of_further. apply list_elem_of_here.
  - reflexivity.
  - reflexivity.
  - reflexivity.
  - discriminate.
Defined.

(** ** Paths and writes *)

Section Writes.

Lemma append_assoc (a b c : string) : (a +:+ b) +:+ c = a +:+ (b +:+ c).
Proof.
  induction a as [|x a IH]; [done|].
  change (String x ((a +:+ b) +:+ c) = String x (a +:+ (b +:+ c))).
  by f_equal.
Qed.

Lemma append_inj (a b c : string) : a +:+ b = a +:+ c -> b = c.
Proof.
  induction a as [|x a IH]; [done|].
  change (String x (a +:+ b) = String x (a +:+ c) -> b = c).
  intros [=]. auto.
Qed.

Lemma users_path_not_time out : users_path out <> time_path out.
Proof.
  unfold users_path, time_path. rewrite !append_assoc.
  intros E%append_inj. discriminate.
Qed.

Lemma users_path_not_songplays out : users_path out <> songplays_path out.
Proof.
  unfold users_path, songplays_path. rewrite !append_assoc.
  intros E%append_inj. discriminate.
Qed.

Lemma time_path_not_songplays out : time_path out <> songplays_path out.
Proof.
  unfold time_path, songplays_path. rewrite !append_assoc.
  intros E%append_inj. discriminate.
Qed.

(** A write touches its own path only, and only when it returns. *)
Lemma write_parquet_frame t path cols (s : store) r s' :
  write_parquet t path cols s = (r, s') ->
  (forall p, p <> path -> s' !! p = s !! p)
  /\ (raises r = true -> s' = s).
Proof.
  unfold write_parquet.
  destruct (negb _); [intros [= <- <-]; done|].
  destruct (s !! path) eqn:E; [intros [= <- <-]; done|].
  destruct (rows t); intros [= <- <-]; [|done].
  split; [|done]. intros p Hp. by rewrite lookup_insert_ne.
Qed.

Lemma write_parquet_eq t path cols (s : store) :
  forallb (fun c => bool_decide (c ∈ columns t)) cols = true ->
  write_parquet t path cols s =
  match s !! path with
  | Some _ => (Raise AnalysisException, s)
  | None =>
      match rows t with
      | Raise e => (Raise e, s)
      | Return l =>
          (Return tt,
           <[path := {| partitionBy := cols; schema := columns t;
                        records := l |}]> s)
      end
  end.
Proof. intros H. unfold write_parquet. by rewrite H. Qed.

Lemma write_parquet_grows t path cols (s : store) :
  s ⊆ (write_parquet t path cols s).2
  /\ dom (write_parquet t path cols s).2 ⊆ dom s ∪ {[ path ]}.
Proof.
  unfold write_parquet.
  destruct (negb _); [split; [done|set_solver]|].
  destruct (s !! path) eqn:E; [split; [done|set_solver]|].
  destruct (rows t); simpl; [|split; [done|set_solver]].
  split; [by apply insert_subseteq|]. rewrite dom_insert. set_solver.
Qed.

End Writes.

(** ** The join of line 119 *)

Section Join.

(** No frame of the script carries an alias, so a name with a qualifier
    is no column of the joined frame: the analysis of the condition
    fails once [col] has been looked up. *)
Lemma merged_df_eq g df song_df :
  merged_df g df song_df
  = let* _ := library g "col" "pyspark.sql.functions.col" in
    Raise AnalysisException.
Proof. reflexivity. Qed.

Lemma merged_df_raises g df song_df :
  raises (merged_df g df song_df) = true.
Proof. rewrite merged_df_eq. by destruct (library g _ _). Qed.

Lemma songplays_of_raises g tz logs songs :
  raises (songplays_of g tz logs songs) = true.
Proof.
  unfold songplays_of. destruct (events g tz logs) as [df|]; [|done].
  unfold Py.bind at 1. pose proof (merged_df_raises g df (Return songs)).
  by destruct (merged_df g df _).
Qed.

(** The selection of lines 120 to 130 names its columns the same way. *)
Lemma songplays_select_raises g merged :
  raises (songplays_select g merged) = true.
Proof.
  unfold songplays_select.
  destruct (library g _ _); [|done].
  destruct (column_function g "year"); [|done].
  by destruct (column_function g "month").
Qed.

End Join.

(** ** process_log_data, one statement after the other *)

Section Steps.

(** The three tables of process_log_data are the three derivations
    [users_of], [time_of] and [songplays_of] of what it reads, each
    written once it is built; the two reads raise when no record is
    there. *)
Lemma process_log_data_steps g w input out (s : store) :
  process_log_data g w input out s =
  match log_files w input with
  | [] => (Raise AnalysisException, s)
  | _ :: _ =>
      (users ⇐ driver (users_of (log_files w input));
       _ ⇐ write_parquet users (users_path out) ["userId"%string];
       time ⇐ driver (time_of g (local_zone w) (log_files w input));
       _ ⇐ write_parquet time (time_path out) ["start_time"%string];
       songplays ⇐ driver
                     (match catalog_files w input with
                      | [] => Raise AnalysisException
                      | _ :: _ =>
                          songplays_of g (local_zone w) (log_files w input)
                            (catalog_files w input)
                      end);
       write_parquet songplays (songplays_path out)
         ["start_time"; "user_id"]%string) s
  end.
Proof.
  unfold process_log_data, users_of, time_of, songplays_of, events, plays,
    and_then, driver, read_json.
  fold (log_files w input) (catalog_files w input)
       (users_path out) (time_path out) (songplays_path out).
  destruct (log_files w input) as [|r logs]; [reflexivity|].
  cbv beta iota zeta. rewrite !play_events_eq.
  cbv beta iota zeta delta [Py.bind]. rewrite users_table_eq.
  destruct (write_parquet _ (users_path out) _ s) as [[[]|e] s1]; [|done].
  destruct (with_timestamps g (local_zone w) _) as [df|e]; [|done].
  destruct (time_table g df) as [time|e]; [|done].
  destruct (write_parquet time (time_path out) _ s1) as [[[]|e] s2]; [|done].
  destruct (catalog_files w input) as [|c songs]; [reflexivity|].
  by destruct (merged_df g df _).
Qed.

(** Whatever the names are bound to, process_log_data raises, and it
    writes at the users path and at the time path at most. *)
Lemma process_log_data_raises g w input out (s : store) :
  exists e s',
    process_log_data g w input out s = (Raise e, s')
    /\ forall p, p <> users_path out -> p <> time_path out ->
                 s' !! p = s !! p.
Proof.
  rewrite process_log_data_steps. unfold and_then, driver.
  destruct (log_files w input) as [|r logs]; [by eexists _, s|].
  destruct (users_of _) as [users|e]; [|by eexists _, s].
  destruct (write_parquet _ (users_path out) _ s) as [[[]|e] s1] eqn:W1;
    apply write_parquet_frame in W1 as [F1 R1];
    [|eexists _, s1; split; [reflexivity|]; intros p H1 _; by rewrite F1].
  destruct (time_of _ _ _) as [time|e];
    [|eexists _, s1; split; [reflexivity|]; intros p H1 _; by rewrite F1].
  destruct (write_parquet time (time_path out) _ s1) as [[[]|e] s2] eqn:W2;
    apply write_parquet_frame in W2 as [F2 R2];
    [|eexists _, s2; split; [reflexivity|]; intros p H1 H2;
      by rewrite F2, F1].
  assert (exists e, match catalog_files w input with
                    | [] => Raise AnalysisException
                    | _ :: _ => songplays_of g (local_zone w) (r :: logs)
                                  (catalog_files w input)
                    end = Raise e) as [e ->].
  { destruct (catalog_files w input) as [|c songs]; [by eexists|].
    pose proof (songplays_of_raises g (local_zone w) (r :: logs) (c :: songs)).
    destruct (songplays_of _ _ _ _); [done|by eexists]. }
  eexists _, s2. split; [reflexivity|]. intros p H1 H2. by rewrite F2, F1.
Qed.

End Steps.

(** ** The script under its own namespace *)

Section AsWritten.

Lemma load_etl : load etl_lines = Raise (IndentationError 134).
Proof. reflexivity. Qed.

(** process_song_data raises before it writes, whatever is bound. *)
Lemma process_song_data_raises g w input out (s : store) :
  exists e, process_song_data g w input out s = (Raise e, s).
Proof.
  unfold process_song_data, and_then, driver, write_songs, read_json, global.
  destruct (song_json w _) as [|c songs]; [by eexists|].
  cbv beta iota zeta. rewrite songs_table_eq.
  destruct (g !! "partitionBy"%string); eexists; reflexivity.
Qed.

Lemma process_song_data_etl w input out (s : store) :
  process_song_data etl_globals w input out s
  = (Raise (match song_files w input with
            | [] => AnalysisException
            | _ :: _ => NameError "partitionBy"
            end), s).
Proof.
  unfold process_song_data, and_then, driver, read_json.
  fold (song_files w input).
  destruct (song_files w input) as [|c songs]; [reflexivity|].
  cbv beta iota zeta. rewrite songs_table_eq. reflexivity.
Qed.

Lemma write_songs_raises g t path (s : store) :
  exists e, write_songs g t path s = (Raise e, s).
Proof.
  unfold write_songs, and_then, driver, global.
  destruct (g !! "partitionBy"%string); eexists; reflexivity.
Qed.



(** Lines 93 to 98 add the two columns to every row, and run nothing. *)
Lemma with_timestamps_eq g tz l :
  library g "udf" "pyspark.sql.functions.udf" = Return tt ->
  with_timestamps g tz (Return l) = Return (Return (event_of g tz <$> l)).
Proof.
  intros H. unfold with_timestamps. rewrite H.
  cbv [Py.bind withColumn_udf Py.map]. by rewrite <- list_fmap_compose.
Qed.

Lemma events_eq g tz logs :
  library g "udf" "pyspark.sql.functions.udf" = Return tt ->
  events g tz logs = Return (Return (event_of g tz <$> filter is_play logs)).
Proof.
  intros H. unfold events. rewrite plays_eq. by apply with_timestamps_eq.
Qed.

Lemma events_etl tz logs :
  events etl_globals tz logs
  = Return (Return (event_of etl_globals tz <$> filter is_play logs)).
Proof. by apply events_eq. Qed.

Lemma time_table_etl df :
  time_table etl_globals df = Raise (NameError "dayofweek").
Proof. reflexivity. Qed.

Lemma time_of_etl tz logs :
  time_of etl_globals tz logs = Raise (NameError "dayofweek").
Proof. unfold time_of. rewrite events_etl. reflexivity. Qed.

Lemma add_songplay_id_etl t :
  add_songplay_id etl_globals t
  = Raise (NameError "monotonically_increasing_id").
Proof. reflexivity. Qed.

Lemma add_songplay_id_with_dayofweek t :
  add_songplay_id with_dayofweek t
  = Raise (NameError "monotonically_increasing_id").
Proof. reflexivity. Qed.

Lemma songplays_table_etl merged :
  songplays_table etl_globals merged = Raise AnalysisException.
Proof. reflexivity. Qed.

Lemma songplays_table_with_dayofweek merged :
  songplays_table with_dayofweek merged = Raise AnalysisException.
Proof. reflexivity. Qed.

(** The whole of process_log_data: the users table goes out, then line
    108 raises. *)
Lemma process_log_data_etl w input out (s : store) :
  process_log_data etl_globals w input out s =
  match log_files w input with
  | [] => (Raise AnalysisException, s)
  | _ :: _ =>
      match s !! users_path out with
      | Some _ => (Raise AnalysisException, s)
      | None =>
          (Raise (NameError "dayofweek"),
           <[users_path out := users_written (log_files w input)]> s)
      end
  end.
Proof.
  rewrite process_log_data_steps. unfold and_then, driver.
  destruct (log_files w input) as [|r logs]; [reflexivity|].
  rewrite users_of_eq, write_parquet_eq by reflexivity.
  destruct (s !! users_path out); [reflexivity|].
  cbv beta iota delta [rows columns]. by rewrite time_of_etl.
Qed.

Lemma process_log_data_etl_raises w input out (s : store) :
  exists e s',
    process_log_data etl_globals w input out s = (Raise e, s')
    /\ s' !! time_path out = s !! time_path out
    /\ s' !! songplays_path out = s !! songplays_path out.
Proof.
  rewrite process_log_data_etl.
  destruct (log_files w input) as [|r logs]; [by eexists _, _|].
  destruct (s !! users_path out) eqn:E; eexists _, _;
    (split; [reflexivity|]); [done|].
  rewrite !lookup_insert_ne;
    auto using users_path_not_time, users_path_not_songplays.
Qed.

End AsWritten.

(** ** C10: the script as written writes no table *)

(** C10.  The script never writes a table.  Loading it fails with an
    [IndentationError] at line 134, which is indented one blank deeper
    than the block it is in, so nothing runs.  Apart from that, the names
    [partitionBy] (line 48), [dayofweek] (line 108) and
    [monotonically_increasing_id] (line 131) are bound nowhere: in the
    namespace of the module, process_song_data raises before it writes
    anything (the [NameError] of [partitionBy], unless the read of line
    41 has found no record and raised already); the time table of line
    101 raises [NameError] whatever the frame is; line 131 raises
    [NameError] whatever the selection is, also once [dayofweek] is
    bound, and the songplays table of line 120 is built for no joined
    frame; and process_log_data raises and leaves the time and songplays
    paths as they were (also once [dayofweek] is bound, for the songplays
    path). *)
Theorem script_writes_no_table :
  (forall w (s : store), run_script w s = (Raise (IndentationError 134), s))
  /\ etl_globals !! "partitionBy"%string = None
  /\ etl_globals !! "dayofweek"%string = None
  /\ etl_globals !! "monotonically_increasing_id"%string = None
  /\ (forall w input out (s : store),
        process_song_data etl_globals w input out s
        = (Raise (match song_files w input with
                  | [] => AnalysisException
                  | _ :: _ => NameError "partitionBy"
                  end), s))
  /\ (forall df, time_table etl_globals df = Raise (NameError "dayofweek"))
  /\ (forall t merged,
        add_songplay_id etl_globals t
        = Raise (NameError "monotonically_increasing_id")
        /\ add_songplay_id with_dayofweek t
           = Raise (NameError "monotonically_increasing_id")
        /\ raises (songplays_table etl_globals merged) = true
        /\ raises (songplays_table with_dayofweek merged) = true)
  /\ (forall w input out (s : store),
        exists e s',
          process_log_data etl_globals w input out s = (Raise e, s')
          /\ s' !! time_path out = s !! time_path out
          /\ s' !! songplays_path out = s !! songplays_path out)
  /\ (forall w input out (s : store),
        exists e s',
          process_log_data with_dayofweek w input out s = (Raise e, s')
          /\ s' !! songplays_path out = s !! songplays_path out).
Proof.
  split; [reflexivity|]. do 3 (split; [by vm_compute|]).
  split; [apply process_song_data_etl|].
  split; [apply time_table_etl|].
  split.
  { intros t m. split; [apply add_songplay_id_etl|].
    split; [apply add_songplay_id_with_dayofweek|].
    by rewrite songplays_table_etl, songplays_table_with_dayofweek. }
  split; [apply process_log_data_etl_raises|].
  intros w input out s.
  destruct (process_log_data_raises with_dayofweek w input out s)
    as (e & s' & -> & F).
  exists e, s'. split; [done|]. apply F.
  - intros E. by apply (users_path_not_songplays out).
  - intros E. by apply (time_path_not_songplays out).
Qed.

(** ** C8: the write of the songs table *)

(** C8.  process_song_data never issues a write of the songs table that
    carries ['year', 'artist_id'] as its partition columns: on lines 47
    and 48 the list is compared with the name [partitionBy] instead of
    being passed under it, so under every namespace the call raises and
    the output location is left as it was; under the namespace of the
    module the error of the statement is the [NameError] of
    [partitionBy], and that is the error of process_song_data whenever
    the read of line 41 has found a record. *)
Theorem songs_write_is_never_issued :
  (forall g w input out (s : store),
      exists e, process_song_data g w input out s = (Raise e, s))
  /\ (forall w input out (s : store),
        process_song_data etl_globals w input out s
        = (Raise (match song_files w input with
                  | [] => AnalysisException
                  | _ :: _ => NameError "partitionBy"
                  end), s))
  /\ (forall g t path (s : store),
        exists e, write_songs g t path s = (Raise e, s))
  /\ (forall t path (s : store),
        write_songs etl_globals t path s
        = (Raise (NameError "partitionBy"), s)).
Proof.
  split; [apply process_song_data_raises|].
  split; [apply process_song_data_etl|].
  split; [apply write_songs_raises|reflexivity].
Qed.

(** ** C7: empty input *)

(** C7, as stated, fails where no file matches: neither extractor
    returns.  The read of line 79 and the read of line 41 raise, under
    the namespace of the module and also with the two missing names
    imported, and nothing is written. *)
Lemma no_file_is_an_error :
  process_log_data etl_globals (no_files DateTime.utc (Return []))
    "in/" "out/" ∅ = (Raise AnalysisException, ∅)
  /\ process_log_data (with_missing_imports Z.of_nat)
       (no_files DateTime.utc (Return [])) "in/" "out/" ∅
     = (Raise AnalysisException, ∅)
  /\ process_song_data etl_globals (no_files DateTime.utc (Return []))
       "in/" "out/" ∅ = (Raise AnalysisException, ∅)
  /\ ~ (exists s : store,
          process_log_data etl_globals (no_files DateTime.utc (Return []))
            "in/" "out/" ∅ = (Return tt, s)
          /\ is_Some (s !! users_path "out/")).
Proof.
  assert (process_log_data etl_globals (no_files DateTime.utc (Return []))
            "in/" "out/" ∅ = (Raise AnalysisException, ∅)) as E
    by reflexivity.
  split; [exact E|]. split; [reflexivity|]. split; [reflexivity|].
  intros (s & H & _). rewrite E in H. discriminate H.
Qed.

(** C7, amended.  When the log location matches no file, process_log_data
    raises [AnalysisException] at the read of line 79, whatever the names
    of the module are bound to, and leaves the output location as it was:
    no users, time or songplays table is written.  Likewise
    process_song_data raises at the read of line 41 when the catalog
    location matches no file. *)
Theorem read_of_no_file_raises
        (g : namespace) (w : world) (input out : string) (s : store) :
  (log_files w input = [] ->
   process_log_data g w input out s = (Raise AnalysisException, s))
  /\ (song_files w input = [] ->
      process_song_data g w input out s = (Raise AnalysisException, s)).
Proof.
  split; intros E.
  - by rewrite process_log_data_steps, E.
  - unfold process_song_data, and_then, driver, read_json.
    fold (song_files w input). by rewrite E.
Qed.

Lemma read_of_no_file_raises_witness :
  process_log_data etl_globals (no_files DateTime.utc (Return []))
    "in/" "out/" ∅ = (Raise AnalysisException, ∅)
  /\ process_song_data etl_globals (no_files DateTime.utc (Return []))
       "in/" "out/" ∅ = (Raise AnalysisException, ∅).
Proof.
  destruct (read_of_no_file_raises etl_globals
              (no_files DateTime.utc (Return [])) "in/" "out/" ∅)
    as [H1 H2].
  split; [apply H1|apply H2]; reflexivity.
Defined.

(** ** C4: the time table *)

(** C4.  Under the namespace of the module the time table is never
    built: line 108 calls [dayofweek], which is bound nowhere, so the
    derivation raises [NameError] for every log input, after hour, day,
    week, month and year have been added and before duplicates are
    dropped; process_log_data raises and leaves the time path as it
    was. *)
Theorem time_table_is_never_built :
  (forall df, time_table etl_globals df = Raise (NameError "dayofweek"))
  /\ (forall tz logs, time_of etl_globals tz logs = Raise (NameError "dayofweek"))
  /\ (forall w input out (s : store),
        exists e s',
          process_log_data etl_globals w input out s = (Raise e, s')
          /\ s' !! time_path out = s !! time_path out).
Proof.
  split; [apply time_table_etl|]. split; [apply time_of_etl|].
  intros w input out s.
  destruct (process_log_data_etl_raises w input out s) as (e & s' & E & T & _).
  by exists e, s'.
Qed.

(** ** The script with the two missing imports *)

Section WithImports.

Variable ids : nat -> Z.

Lemma imap_row {A B} (f : A -> B) (l : list A) :
  imap (fun _ r => f r) l = f <$> l.
Proof. apply (imap_const f). Qed.

Lemma traverse_ext {A B} (f f' : A -> outcome B) l :
  (forall x, f x = f' x) -> traverse f l = traverse f' l.
Proof.
  intros H. induction l as [|x l IH]; [done|]. simpl. by rewrite H, IH.
Qed.

Lemma traverse_map {A B C} (f : A -> outcome B) (h : B -> C) l :
  traverse (fun x => Py.map h (f x)) l = Py.map (fmap h) (traverse f l).
Proof.
  induction l as [|x l IH]; [done|]. simpl. rewrite IH.
  unfold Py.map, Py.bind. destruct (f x); [|done].
  by destruct (traverse f l).
Qed.

Lemma traverse_fmap {A B C} (f : B -> outcome C) (h : A -> B) l :
  traverse f (h <$> l) = traverse (fun x => f (h x)) l.
Proof.
  induction l as [|x l IH]; [done|].
  rewrite fmap_cons. cbn [traverse]. by rewrite IH.
Qed.

Lemma events_with_imports tz logs :
  events (with_missing_imports ids) tz logs
  = Return (Return (event_of (with_missing_imports ids) tz
                      <$> filter is_play logs)).
Proof. by apply events_eq. Qed.

(** What lines 101 to 109 build once [dayofweek] is there: the job
    computes the column [datetime] on every row, and the other columns
    from it. *)
Lemma time_table_with_imports (df : frame Event) :
  time_table (with_missing_imports ids) df
  = Return {| columns := time_columns;
              rows := Py.map
                        (fun l => remove_dups (time_tuple F.dayofweek <$> l))
                        (job added df) |}.
Proof.
  destruct df as [evs|e]; [|reflexivity].
  transitivity
    (Return
       {| columns := time_columns;
          rows :=
            Py.map remove_dups
              (Py.map (imap (fun _ r => r ++ [F.dayofweek (nth 0 r Null)]))
              (Py.map (imap (fun _ r => r ++ [F.year (nth 0 r Null)]))
              (Py.map (imap (fun _ r => r ++ [F.month (nth 0 r Null)]))
              (Py.map (imap (fun _ r => r ++ [F.weekofyear (nth 0 r Null)]))
              (Py.map (imap (fun _ r => r ++ [F.dayofmonth (nth 0 r Null)]))
              (Py.map (imap (fun _ r => r ++ [F.hour (nth 0 r Null)]))
              (Py.map (imap (fun _ r => r ++ [nth 0 r Null]))
                 (failed
                    (traverse
                       (fun e : Event =>
                          traverse (fun f : Event -> outcome cell => f e)
                            [fun r : Event => Py.map Str (added r)])
                       evs))))))))) |});
    [reflexivity|].
  rewrite (traverse_ext _ (fun e => Py.map (fun s => [Str s]) (added e)))
    by (intros e; cbv [traverse Py.map Py.bind]; by destruct (added e)).
  rewrite traverse_map. unfold job, Py.bind at 1.
  destruct (traverse added evs) as [strings|e]; [|reflexivity].
  cbv [failed Py.map Py.bind]. do 4 f_equal.
  rewrite !imap_row, <- !list_fmap_compose.
  apply list_fmap_ext. intros i s _. reflexivity.
Qed.

(** When the conversion of line 97 returns on every play event, the
    time table has one row for each distinct [datetime] of the play
    events, with the columns derived from it. *)
Lemma time_of_with_imports tz logs strings :
  traverse (fun r => get_datetime (with_missing_imports ids) tz (ts r))
    (filter is_play logs) = Return strings ->
  exists rows,
    time_of (with_missing_imports ids) tz logs
    = Return {| columns := time_columns; Spark.rows := Return rows |}
    /\ NoDup rows
    /\ (forall r, r ∈ rows <->
                  exists s, s ∈ strings /\ r = time_tuple F.dayofweek s)
    /\ (forall r1 r2, r1 ∈ rows -> r2 ∈ rows ->
                      r1 !! 1%nat = r2 !! 1%nat -> r1 = r2).
Proof.
  intros E. unfold time_of. rewrite events_with_imports. unfold Py.bind.
  rewrite time_table_with_imports. unfold job, Py.bind.
  rewrite traverse_fmap.
  change (traverse _ (filter is_play logs))
    with (traverse
            (fun r => get_datetime (with_missing_imports ids) tz (ts r))
            (filter is_play logs)).
  rewrite E.
  exists (remove_dups (time_tuple F.dayofweek <$> strings)).
  split; [reflexivity|]. split; [apply NoDup_remove_dups|].
  assert (forall r,
             r ∈ remove_dups (time_tuple F.dayofweek <$> strings)
             <-> exists s, s ∈ strings /\ r = time_tuple F.dayofweek s) as M.
  { intros r. rewrite elem_of_remove_dups, list_elem_of_fmap.
    split; intros (s & H1 & H2); eauto. }
  split; [exact M|].
  intros r1 r2 (s1 & _ & ->)%M (s2 & _ & ->)%M [= E12]. by rewrite E12.
Qed.

(** When the conversion raises on a play event, the table is built all
    the same, and the job of its write fails. *)
Lemma time_of_conversion_raises tz logs e :
  traverse (fun r => get_datetime (with_missing_imports ids) tz (ts r))
    (filter is_play logs) = Raise e ->
  time_of (with_missing_imports ids) tz logs
  = Return {| columns := time_columns; rows := Raise (JobFailed e) |}.
Proof.
  intros E. unfold time_of. rewrite events_with_imports. unfold Py.bind.
  rewrite time_table_with_imports. unfold job, Py.bind.
  rewrite traverse_fmap.
  change (traverse _ (filter is_play logs))
    with (traverse
            (fun r => get_datetime (with_missing_imports ids) tz (ts r))
            (filter is_play logs)).
  by rewrite E.
Qed.



End WithImports.

(** ** C3: the join *)


(** ** C5: the derived timestamp *)

Section Timestamp.

(** The conversion asks the zone for its offset at the second it
    converts and at the seconds it probes, and for nothing else. *)
Lemma localtime_agrees (tz1 tz2 : DateTime.zone) t :
  tz1 t = tz2 t -> DateTime.localtime tz1 t = DateTime.localtime tz2 t.
Proof. intros H. unfold DateTime.localtime. by rewrite H. Qed.

Lemma local_agrees (tz1 tz2 : DateTime.zone) t :
  tz1 t = tz2 t -> DateTime.local tz1 t = DateTime.local tz2 t.
Proof.
  intros H. unfold DateTime.local. by rewrite (localtime_agrees tz1 tz2 t H).
Qed.

Lemma from_timeval_zone (tz1 tz2 : DateTime.zone) tv :
  (forall t, tz1 t = tz2 t) ->
  DateTime.from_timeval tz1 tv = DateTime.from_timeval tz2 tv.
Proof.
  intros H. unfold DateTime.from_timeval.
  rewrite (localtime_agrees tz1 tz2 _ (H _)).
  destruct (DateTime.localtime tz2 tv.1) as [tm|]; [|done].
  cbv beta iota delta [Py.bind].
  destruct (DateTime.utc_to_seconds tm) as [result|]; [|done].
  rewrite (local_agrees tz1 tz2 _ (H _)).
  destruct (DateTime.local tz2 (tv.1 - 86400)) as [probe|]; [|done].
  destruct (result - probe - 86400 <? 0); [|done].
  by rewrite (local_agrees tz1 tz2 _ (H _)).
Qed.

Lemma get_datetime_zone g (tz1 tz2 : DateTime.zone) x :
  (forall t, tz1 t = tz2 t) -> get_datetime g tz1 x = get_datetime g tz2 x.
Proof.
  intros H. unfold get_datetime, DateTime.fromtimestamp, Py.bind.
  destruct (library g _ _); [|done]. destruct x as [n|]; [|done].
  destruct (Num.int_truediv n 1000) as [d|]; [|done].
  destruct (DateTime.timeval d) as [tv|]; [|done].
  by rewrite (from_timeval_zone tz1 tz2 tv H).
Qed.

(** The local time of a second that falls, in local time, in the first
    week of November 2018. *)
Lemma local_in_november_2018 (tz : DateTime.zone) t :
  1541030400 <= t + tz t < 1541635200 ->
  DateTime.local tz t = Return (t + tz t + 62135683200).
Proof.
  unfold DateTime.local, DateTime.localtime, DateTime.broken_down.
  generalize (t + tz t). intros l H.
  pose proof (Z.div_mod l 86400 ltac:(lia)) as D.
  pose proof (Z.mod_pos_bound l 86400 ltac:(lia)) as B.
  set (q := l / 86400) in *. set (r := l mod 86400) in *.
  assert ((r / 3600 * 60 + r mod 3600 / 60) * 60 + r mod 60 = r) as S
    by (Z.div_mod_to_equations; lia).
  assert (q = 17836 \/ q = 17837 \/ q = 17838 \/ q = 17839 \/ q = 17840
          \/ q = 17841 \/ q = 17842) as Hq by lia.
  destruct Hq as [Hq|[Hq|[Hq|[Hq|[Hq|[Hq|Hq]]]]]]; rewrite Hq in *;
    match goal with
    | |- context [Calendar.civil_from_days ?d] =>
        let v := eval vm_compute in (Calendar.civil_from_days d) in
        change (Calendar.civil_from_days d) with v
    end;
    cbv beta iota zeta;
    change ((- 2 ^ 31 <=? 2018 - 1900) && (2018 - 1900 <? 2 ^ 31)) with true;
    cbv beta iota delta [Py.bind DateTime.utc_to_seconds];
    change ((1 <=? 2018) && (2018 <=? 9999)) with true;
    cbv beta iota;
    match goal with
    | |- context [Calendar.days_from_civil ?y ?m ?d] =>
        let v := eval vm_compute in (Calendar.days_from_civil y m d) in
        change (Calendar.days_from_civil y m d) with v
    end;
    f_equal; lia.
Qed.

(** The float of 1541440006796 / 1000 splits into 1541440006 seconds
    and 796000 microseconds. *)
Lemma get_datetime_sample tz :
  get_datetime etl_globals tz (Some 1541440006796)
  = Py.map DateTime.str (DateTime.from_timeval tz (1541440006, 796000)).
Proof. reflexivity. Qed.

(** Where the zone is at UTC at that second, the conversion gives 17:46:46
    on 2018-11-05, whatever the zone is at the seconds that are probed. *)
Lemma from_timeval_sample (tz : DateTime.zone) :
  tz 1541440006 = 0 ->
  DateTime.from_timeval tz (1541440006, 796000)
  = Return (DateTime.Make 2018 11 5 17 46 46 796000).
Proof.
  intros H0. unfold DateTime.from_timeval.
  change ((1541440006, 796000).1) with 1541440006.
  change ((1541440006, 796000).2) with 796000.
  rewrite (localtime_agrees tz DateTime.utc 1541440006 H0).
  change (DateTime.localtime DateTime.utc 1541440006)
    with (Return (A := Z * Z * Z * Z * Z * Z) (2018, 11, 5, 17, 46, 46)).
  cbv beta iota delta [Py.bind].
  change (DateTime.utc_to_seconds (2018, 11, 5, 17, 46, 46))
    with (Return 63677123206).
  cbv beta iota.
  pose proof (DateTime.offset_bound tz (1541440006 - 86400)) as B1.
  rewrite (local_in_november_2018 tz (1541440006 - 86400)) by lia.
  cbv beta iota zeta.
  set (transition :=
         63677123206
         - (1541440006 - 86400 + tz (1541440006 - 86400) + 62135683200)
         - 86400) in *.
  destruct (transition <? 0) eqn:T; [|reflexivity].
  apply Z.ltb_lt in T.
  pose proof (DateTime.offset_bound tz (1541440006 + transition)) as B2.
  rewrite (local_in_november_2018 tz (1541440006 + transition))
    by (unfold transition in *; lia).
  reflexivity.
Qed.

End Timestamp.

(** C5, as stated, fails: the date-time is not a function of [ts]
    alone.  The same [ts] = 1541440006796 gives 17:46:46 on 2018-11-05 in
    a process whose local zone is UTC and 09:46:46 in one whose zone is
    eight hours behind. *)
Lemma datetime_depends_on_the_zone :
  get_datetime etl_globals DateTime.utc (Some 1541440006796)
  = Return "2018-11-05 17:46:46.796000"%string
  /\ get_datetime etl_globals Sample.pst (Some 1541440006796)
     = Return "2018-11-05 09:46:46.796000"%string
  /\ ~ (forall tz1 tz2 x,
          get_datetime etl_globals tz1 x = get_datetime etl_globals tz2 x).
Proof.
  assert (get_datetime etl_globals DateTime.utc (Some 1541440006796)
          = Return "2018-11-05 17:46:46.796000"%string) as E1
    by (vm_compute; reflexivity).
  assert (get_datetime etl_globals Sample.pst (Some 1541440006796)
          = Return "2018-11-05 09:46:46.796000"%string) as E2
    by (vm_compute; reflexivity).
  split; [exact E1|]. split; [exact E2|].
  intros H. specialize (H DateTime.utc Sample.pst (Some 1541440006796)).
  rewrite E1, E2 in H. discriminate H.
Qed.

(** C5, amended.  The derived date-time is a deterministic function of
    the [ts] field and of the local time zone of the process that runs
    the conversion: two zones that agree give the same result on every
    [ts].  The conversion divides by 1000 and reads the quotient in local
    time; where the zone is at UTC at that second, [ts] = 1541440006796
    gives "2018-11-05 17:46:46.796000", from which hour 17, day 5, ISO
    week 45, month 11 and year 2018 are derived. *)
Theorem datetime_of_ts_and_zone (g : namespace) (tz1 tz2 : DateTime.zone) :
  (forall t, tz1 t = tz2 t) ->
  (forall x, get_datetime g tz1 x = get_datetime g tz2 x)
  /\ (tz1 1541440006 = 0 ->
      get_datetime etl_globals tz1 (Some 1541440006796)
      = Return "2018-11-05 17:46:46.796000"%string
      /\ F.hour (Str "2018-11-05 17:46:46.796000") = Long 17
      /\ F.dayofmonth (Str "2018-11-05 17:46:46.796000") = Long 5
      /\ F.weekofyear (Str "2018-11-05 17:46:46.796000") = Long 45
      /\ F.month (Str "2018-11-05 17:46:46.796000") = Long 11
      /\ F.year (Str "2018-11-05 17:46:46.796000") = Long 2018).
Proof.
  intros H. split; [intros x; by apply get_datetime_zone|].
  intros H0. split; [|repeat split; vm_compute; reflexivity].
  rewrite get_datetime_sample, (from_timeval_sample tz1 H0).
  vm_compute. reflexivity.
Qed.

Lemma datetime_of_ts_and_zone_witness :
  (forall x, get_datetime etl_globals DateTime.utc x
             = get_datetime etl_globals DateTime.utc x)
  /\ get_datetime etl_globals DateTime.utc (Some 1541440006796)
     = Return "2018-11-05 17:46:46.796000"%string.
Proof.
  destruct (datetime_of_ts_and_zone etl_globals DateTime.utc DateTime.utc
              (fun t => eq_refl)) as [H1 H2].
  split; [exact H1|]. exact (proj1 (H2 eq_refl)).
Defined.

(** ** C9: running twice *)


(** ** Runs on the sample files *)

Section Runs.

(** The script as written, on the sample files and an empty output
    location: the users table of the two play events goes out, then line
    108 raises. *)
Example run_sample_as_written :
  process_song_data etl_globals Sample.files "in/" "out/" ∅
  = (Raise (NameError "partitionBy"), ∅)
  /\ process_log_data etl_globals Sample.files "in/" "out/" ∅
     = (Raise (NameError "dayofweek"),
        {[ "out/users/users.parquet"%string :=
             {| partitionBy := ["userId"%string];
                schema := ["userId"; "firstName"; "lastName"; "gender";
                           "level"]%string;
                records :=
                  [ [Str "26"; Str "Ryan"; Str "Smith"; Str "M"; Str "free"];
                    [Str "26"; Str "Ryan"; Str "Smith"; Str "M"; Str "paid"] ]
             |} ]}).
Proof.
  split; [by rewrite process_song_data_etl|].
  rewrite process_log_data_etl. reflexivity.
Qed.

(** With the two missing names imported, process_log_data writes the
    users table and the time table of the two play events of the sample
    files, and then raises on line 119. *)
Example run_sample_with_imports :
  let run := process_log_data (with_missing_imports Z.of_nat) Sample.files
               "in/" "out/" ∅ in
  run.1 = Raise AnalysisException
  /\ run.2 !! "out/time/time.parquet"%string
     = Some {| partitionBy := ["start_time"%string];
               schema := time_columns;
               records :=
                 [ [Str "2018-11-05 17:46:46.796000";
                    Str "2018-11-05 17:46:46.796000";
                    Long 17; Long 5; Long 45; Long 11; Long 2018; Long 2];
                   [Str "2018-11-05 17:49:42.796000";
                    Str "2018-11-05 17:49:42.796000";
                    Long 17; Long 5; Long 45; Long 11; Long 2018; Long 2] ]
            |}
  /\ run.2 !! "out/users/users.parquet"%string
     = Some (users_written (log_files Sample.files "in/"))
  /\ run.2 !! "out/songplays/songplays.parquet"%string = None.
Proof. vm_compute. repeat split. Qed.

End Runs.

(* ===================================================================== *)
(** * Further properties of the script                                    *)
(* ===================================================================== *)

(** ** The artists table (lines 51 and 52) *)

(** X1.  For every set of catalog records, the artists table of lines 51
    and 52 has the columns (artist_id, artist_name, artist_location,
    artist_latitude, artist_longitude); its rows are exactly the tuples
    of these columns over the catalog records, each of them once: two
    songs of one artist give one row, and an artist whose records differ
    in any of the five columns gives one row for each variant. *)
Theorem artists_table_rows (df : list CatalogRow) :
  exists rows,
    artists_table (Return df) =
      Return {| columns := ["artist_id"; "artist_name"; "artist_location";
                            "artist_latitude"; "artist_longitude"]%string;
                Spark.rows := Return rows |}
    /\ NoDup rows
    /\ (forall r, r ∈ rows <-> exists c, c ∈ df /\ r = artist_tuple c)
    /\ (length rows <= length df)%nat.
Proof.
  exists (remove_dups (artist_tuple <$> df)).
  split; [apply artists_table_eq|].
  split; [apply NoDup_remove_dups|]. split.
  - intros r. rewrite elem_of_remove_dups, list_elem_of_fmap.
    split; intros (c & H1 & H2); eauto.
  - rewrite <- (length_fmap artist_tuple df).
    apply submseteq_length, NoDup_submseteq; [apply NoDup_remove_dups|].
    intros r. by rewrite elem_of_remove_dups.
Qed.

(** ** The module body (lines 9 to 13) *)

(** X2.  The statements of the module never reach [main]: whatever
    dl.cfg holds, line 12 raises.  When the file does not parse the error
    of the parse is raised on line 10; when it has no section named
    AWS_ACCESS_KEY_ID, line 12 raises [KeyError]; when it has one, the
    section is not a string and [os.environ] raises [TypeError].  The
    output location is left as it was. *)
Theorem module_body_never_reaches_main (w : world) (s : store) :
  module_body w s =
  (match dl_cfg w with
   | Raise e => Raise e
   | Return sections =>
       if bool_decide ("AWS_ACCESS_KEY_ID"%string ∈ sections)
       then Raise TypeError
       else Raise (KeyError "AWS_ACCESS_KEY_ID")
   end, s).
Proof.
  unfold module_body, and_then, driver, export_credential.
  destruct (dl_cfg w) as [sections|e]; [|done].
  by destruct (bool_decide _).
Qed.

(** ** What process_log_data leaves in the output location *)

(** X3.  process_log_data never overwrites and never deletes: under
    every namespace and on every input, each table that the output
    location held before the run is there unchanged after it, whether
    the run returns or raises, and the only paths that can be new are
    those of the users, time and songplays tables. *)
Theorem process_log_data_only_adds
        (g : namespace) (w : world) (input out : string) (s : store) :
  s ⊆ (process_log_data g w input out s).2
  /\ dom (process_log_data g w input out s).2
     ⊆ dom s ∪ {[ users_path out; time_path out; songplays_path out ]}.
Proof.
  rewrite process_log_data_steps. unfold and_then, driver.
  destruct (log_files w input) as [|r logs]; [split; [done|set_solver]|].
  destruct (users_of _) as [users|]; [|split; [done|set_solver]].
  pose proof (write_parquet_grows users (users_path out)
                ["userId"%string] s) as [S1 D1].
  destruct (write_parquet users _ _ s) as [[[]|] s1]; simpl in *;
    [|split; [done|set_solver]].
  destruct (time_of g _ _) as [time|]; [|split; [done|set_solver]].
  pose proof (write_parquet_grows time (time_path out)
                ["start_time"%string] s1) as [S2 D2].
  destruct (write_parquet time _ _ s1) as [[[]|] s2]; simpl in *;
    [|split; [by etrans|set_solver]].
  destruct (match catalog_files w input with
            | [] => Raise AnalysisException
            | _ :: _ => songplays_of g _ _ _
            end) as [sp|]; [|split; [by etrans|set_solver]].
  pose proof (write_parquet_grows sp (songplays_path out)
                ["start_time"; "user_id"]%string s2) as [S3 D3].
  destruct (write_parquet sp _ _ s2) as [r' s3]; simpl in *.
  split; [by do 2 (etrans; [eassumption|])|set_solver].
Qed.

(** ** The one table the script as written can write *)

(** X4.  Called where the log location holds a record and the users
    path is free, process_log_data as written writes exactly one table
    before it raises on line 108: the users table, partitioned by
    userId, whose rows are the tuples (userId, firstName, lastName,
    gender, level) of the log records with page NextSong, each tuple
    once; every other path is left as it was. *)
Theorem process_log_data_writes_users_only
        (w : world) (input out : string) (s : store) :
  log_files w input <> [] ->
  s !! users_path out = None ->
  exists rows,
    process_log_data etl_globals w input out s
    = (Raise (NameError "dayofweek"),
       <[users_path out :=
           {| partitionBy := ["userId"%string];
              schema := ["userId"; "firstName"; "lastName"; "gender";
                         "level"]%string;
              records := rows |}]> s)
    /\ NoDup rows
    /\ (forall r, r ∈ rows <->
          exists l, l ∈ log_files w input
                    /\ page l = Some "NextSong"%string /\ r = user_tuple l).
Proof.
  intros Hne H.
  exists (remove_dups (user_tuple <$> filter is_play (log_files w input))).
  split.
  { rewrite process_log_data_etl, H.
    by destruct (log_files w input). }
  split; [apply NoDup_remove_dups|].
  intros r. rewrite elem_of_remove_dups, list_elem_of_fmap. split.
  - intros (l & -> & [P Hl]%list_elem_of_filter). exists l.
    by rewrite <- is_play_spec.
  - intros (l & Hl & P & ->). exists l. split; [done|].
    apply list_elem_of_filter. by rewrite is_play_spec.
Qed.

Lemma process_log_data_writes_users_only_witness :
  exists rows,
    process_log_data etl_globals Sample.files "in/" "out/" ∅
    = (Raise (NameError "dayofweek"),
       <[users_path "out/" :=
           {| partitionBy := ["userId"%string];
              schema := ["userId"; "firstName"; "lastName"; "gender";
                         "level"]%string;
              records := rows |}]> ∅)
    /\ NoDup rows
    /\ (forall r, r ∈ rows <->
          exists l, l ∈ log_files Sample.files "in/"
                    /\ page l = Some "NextSong"%string /\ r = user_tuple l).
Proof.
  apply (process_log_data_writes_users_only Sample.files "in/" "out/" ∅).
  - discriminate.
  - apply lookup_empty.
Defined.

(** ** A run on an output location that holds a users table *)

(** X5.  No save mode is given on line 89, so a call of process_log_data
    that finds data at the users path is refused: under every namespace
    and on every input the call raises [AnalysisException] (at the read
    of line 79 when no log file is there, at the write of line 89
    otherwise) and leaves the whole output location as it was; nothing is
    overwritten and nothing is appended. *)
Theorem process_log_data_refused
        (g : namespace) (w : world) (input out : string) (s : store) :
  is_Some (s !! users_path out) ->
  process_log_data g w input out s = (Raise AnalysisException, s).
Proof.
  intros [x E]. rewrite process_log_data_steps. unfold and_then, driver.
  destruct (log_files w input) as [|r logs]; [done|].
  by rewrite users_of_eq, write_parquet_eq, E by reflexivity.
Qed.

Lemma process_log_data_refused_witness :
  process_log_data etl_globals Sample.files "in/" "out/"
    {[ users_path "out/" := users_written [Sample.play_paid] ]}
  = (Raise AnalysisException,
     {[ users_path "out/" := users_written [Sample.play_paid] ]}).
Proof.
  apply (process_log_data_refused etl_globals Sample.files "in/" "out/").
  exists (users_written [Sample.play_paid]). vm_compute. reflexivity.
Defined.
